(** * MHD BA departures: a shallow embedding of the integration's core

    The development follows the Python sources file by file
    ([const.py], [helpers.py], [config_flow.py], [coordinator.py],
    [sensor.py]).  Definitions come first, theorems afterwards.

    Conventions of the embedding.
    - Python [int] is [Z]; [str] is [string] (bytes of the UTF-8 encoding,
      on which the lexicographic order coincides with Python's code point
      order); [list] is [list]; a value that may be [None] is an [option].
    - A JSON object received from the upstream API is a record whose fields
      are the keys of the documented response envelope; a key that is absent
      is [None] and [d.get(k, default)] is [get].  Values carry the types of
      the envelope (strings for line, destination, direction tag; integers
      for timestamps and delays).  An explicit JSON [null] or a value of
      another type is outside this model.
    - Exceptions are values of [exn]; code that can raise returns a
      [result].  Mutation of the coordinator object is explicit state
      passing, and a raised exception keeps the mutations made before it.
    - The wall clock, the HTTP session and the local time zone are inputs. *)

From Stdlib Require Import ZArith List Bool String Ascii Lia.
From Stdlib Require Import Permutation Sorted DecimalString.
Import ListNotations.

Local Open Scope string_scope.
Local Open Scope Z_scope.

(** ** Python built-ins used by the sources *)

Module Py.

(** [d.get(k, default)] on a key that may be absent. *)
Definition get {A : Type} (field : option A) (default : A) : A :=
  match field with
  | Some v => v
  | None => default
  end.

(** Truth value of an [int | None]: [None] and [0] are false. *)
Definition truthy_int (v : option Z) : bool :=
  match v with
  | Some n => negb (n =? 0)
  | None => false
  end.

(** Truth value of a [str | None]: [None] and the empty string are false. *)
Definition truthy_str (v : option string) : bool :=
  match v with
  | Some s => negb (s =? "")%string
  | None => false
  end.

(** Truth value of a list: only the empty list is false. *)
Definition truthy_list {A : Type} (l : list A) : bool :=
  match l with
  | [] => false
  | _ :: _ => true
  end.

(** [x in l] for a list of strings. *)
Definition str_in (x : string) (l : list string) : bool :=
  existsb (String.eqb x) l.

(** [v == s] for a [str | None] against a string. *)
Definition opt_str_eqb (v : option string) (s : string) : bool :=
  match v with
  | Some x => (x =? s)%string
  | None => false
  end.

(** [str(n)] of an integer, also what an f-string writes for it. *)
Definition str_int (n : Z) : string :=
  NilZero.string_of_int (Z.to_int n).

(** [int(a / b)]: true division followed by truncation toward zero.  The
    quotient goes through a float in Python; it is exact for the magnitudes
    of epoch seconds (below 2^53), which is what [Z.quot] gives. *)
Definition int_truediv (a b : Z) : Z := Z.quot a b.

(** [sep.join(l)]. *)
Definition join (sep : string) (l : list string) : string :=
  String.concat sep l.

(** [s.replace(c, by)] for a one-character pattern [c]. *)
Fixpoint replace (c : ascii) (by_ : string) (s : string) : string :=
  match s with
  | EmptyString => EmptyString
  | String a s' =>
      if Ascii.eqb a c then by_ ++ replace c by_ s'
      else String a (replace c by_ s')
  end.

(** [sorted(l)] on strings.  Python sorts with a stable merge sort; the
    order on [str] is total and antisymmetric, so every correct sort returns
    the same list and insertion sort stands for it. *)
Fixpoint insert (x : string) (l : list string) : list string :=
  match l with
  | [] => [x]
  | y :: l' => if String.leb x y then x :: y :: l' else y :: insert x l'
  end.

Fixpoint sorted (l : list string) : list string :=
  match l with
  | [] => []
  | x :: l' => insert x (sorted l')
  end.

(** [l[:n]]: a negative [n] counts from the end. *)
Definition slice_to {A : Type} (l : list A) (n : Z) : list A :=
  if 0 <=? n then firstn (Z.to_nat n) l
  else firstn (Z.to_nat (Z.of_nat (List.length l) + n)) l.

(** One decimal digit. *)
Definition digit (n : Z) : ascii :=
  ascii_of_nat (48 + Z.to_nat (n mod 10)).

(** [%02d] (for [0 <= n < 100]) and [%04d] (for [0 <= n < 10000]). *)
Definition pad2 (n : Z) : string :=
  String (digit (n / 10)) (String (digit n) EmptyString).

Definition pad4 (n : Z) : string :=
  String (digit (n / 1000)) (String (digit (n / 100)) (pad2 n)).

(** [re.split(r"[,;]", s)] and the like: split at every character of a
    class; [n] separators give [n + 1] pieces, empty ones included. *)
Fixpoint split_on (is_sep : ascii -> bool) (s : string) : list string :=
  match s with
  | EmptyString => [EmptyString]
  | String a s' =>
      if is_sep a then EmptyString :: split_on is_sep s'
      else
        match split_on is_sep s' with
        | piece :: pieces => String a piece :: pieces
        | [] => [String a EmptyString]
        end
  end.

(** Whitespace as [str.strip()] understands it, on the UTF-8 encoding: the
    code points 9 to 13, 28 to 32, U+0085, U+00A0, U+1680, U+2000 to U+200A,
    U+2028, U+2029, U+202F, U+205F and U+3000. *)
Definition isspace1 (a : ascii) : bool :=
  let n := nat_of_ascii a in
  ((9 <=? n) && (n <=? 13) || (28 <=? n) && (n <=? 32))%nat.

Definition isspace2 (a b : ascii) : bool :=
  let m := nat_of_ascii a in
  let n := nat_of_ascii b in
  ((m =? 194) && ((n =? 133) || (n =? 160)))%nat.

Definition isspace3 (a b c : ascii) : bool :=
  let l := nat_of_ascii a in
  let m := nat_of_ascii b in
  let n := nat_of_ascii c in
  ((l =? 225) && (m =? 154) && (n =? 128)
   || (l =? 226) && (m =? 128)
      && ((128 <=? n) && (n <=? 138) || (n =? 168) || (n =? 169)
          || (n =? 175))
   || (l =? 226) && (m =? 129) && (n =? 159)
   || (l =? 227) && (m =? 128) && (n =? 128))%nat.

(** [s.lstrip()] *)
Fixpoint lstrip (s : string) : string :=
  match s with
  | EmptyString => EmptyString
  | String a s1 =>
      if isspace1 a then lstrip s1
      else
        match s1 with
        | EmptyString => s
        | String b s2 =>
            if isspace2 a b then lstrip s2
            else
              match s2 with
              | EmptyString => s
              | String c s3 => if isspace3 a b c then lstrip s3 else s
              end
        end
  end.

(** The string read backwards, and [lstrip] on it: the bytes of a
    whitespace character come last byte first. *)
Fixpoint str_rev (s : string) : string :=
  match s with
  | EmptyString => EmptyString
  | String a s' => str_rev s' ++ String a EmptyString
  end.

Fixpoint lstrip_rev (s : string) : string :=
  match s with
  | EmptyString => EmptyString
  | String c s1 =>
      if isspace1 c then lstrip_rev s1
      else
        match s1 with
        | EmptyString => s
        | String b s2 =>
            if isspace2 b c then lstrip_rev s2
            else
              match s2 with
              | EmptyString => s
              | String a s3 => if isspace3 a b c then lstrip_rev s3 else s
              end
        end
  end.

(** [s.rstrip()] and [s.strip()] *)
Definition rstrip (s : string) : string :=
  str_rev (lstrip_rev (str_rev s)).

Definition strip (s : string) : string := rstrip (lstrip s).

End Py.

(** ** Exceptions *)

Inductive exn : Type :=
| ClientError (msg : string)       (* aiohttp.ClientError *)
| UpdateFailed (msg : string)      (* homeassistant UpdateFailed *)
| TypeError (msg : string)
| AttributeError (msg : string)
| CannotConnect                    (* config_flow.CannotConnect *)
| InvalidStopId                    (* config_flow.InvalidStopId *)
| KeyError (msg : string)
| IndexError (msg : string)
| ValueError (literal : string)    (* int() of a string that is no number *)
| TimeoutError.                    (* asyncio.TimeoutError *)

Definition result (A : Type) : Type := (exn + A)%type.

(** ** const.py *)

Module const.

Definition DOMAIN := "mhd_ba".
Definition API_URL := "https://mapa.idsbk.sk/navigation/stops".
Definition DEPARTURES_API_ENDPOINT := API_URL ++ "/planned_departures".
Definition STOP_INFO_API_ENDPOINT := API_URL ++ "/ids".
Definition DEFAULT_FILTER := "urban".
Definition DEFAULT_CITY_ID := "-1".
Definition DEFAULT_MAX_DEPARTURES := 10.

(** [helpers.py] and [sensor.py] import [DIRECTION_ALL] and [DIRECTION_HERE]
    from [const.py], which does not define them.  They are parameters of the
    development: nothing below depends on their values. *)
Class Directions : Type := {
  DIRECTION_ALL : string;
  DIRECTION_HERE : string
}.

End const.
Export const.

(** ** helpers.py *)

Module helpers.

Section WithDirections.
Context `{Directions}.

Definition generate_name
    (stop_id : string) (filter_lines : list string) (direction : string)
    : string :=
  (* Start with base name using stop_id *)
  let name := "Bus Stop " ++ stop_id in
  (* Add filtered lines if present *)
  let name :=
    if Py.truthy_list filter_lines then
      name ++ " (Lines: " ++ Py.join ", " (Py.sorted filter_lines) ++ ")"
    else name in
  (* Add direction info if not the default *)
  if negb (direction =? DIRECTION_ALL)%string then
    let direction_label :=
      if (direction =? DIRECTION_HERE)%string then "direction here"
      else "direction there" in
    name ++ " " ++ direction_label
  else name.

Definition generate_unique_id
    (stop_id : string) (filter_lines : list string) (direction : string)
    : string :=
  (* Start with stop_id as base *)
  let unique_id_parts := [stop_id] in
  (* Add sorted lines if present *)
  let unique_id_parts :=
    if Py.truthy_list filter_lines then
      let sorted_lines := Py.sorted filter_lines in
      (unique_id_parts ++ [Py.join "-" sorted_lines])%list
    else unique_id_parts in
  (* Add direction if it's not the default *)
  let unique_id_parts :=
    if negb (direction =? DIRECTION_ALL)%string then
      (unique_id_parts ++ [direction])%list
    else unique_id_parts in
  Py.join "_" unique_id_parts.

End WithDirections.

End helpers.

(** ** Wall-clock values and the HTTP session *)

(** An aware local [datetime], as [dt_util.now()] returns it; [utcoffset] is
    in seconds and lies strictly between minus and plus one day. *)
Record datetime : Type := {
  year : Z;
  month : Z;
  day : Z;
  hour : Z;
  minute : Z;
  second : Z;
  utcoffset : Z
}.

Module strftime.

(** [now.strftime("%Y-%m-%d+%H:%M")] *)
Definition Ymd_plus_HM (now : datetime) : string :=
  Py.pad4 (year now) ++ "-" ++ Py.pad2 (month now) ++ "-"
    ++ Py.pad2 (day now) ++ "+" ++ Py.pad2 (hour now) ++ ":"
    ++ Py.pad2 (minute now).

(** [now.strftime("%z")]: sign, hours and minutes of the offset, and its
    seconds when they are not zero. *)
Definition z (now : datetime) : string :=
  let off := Z.abs (utcoffset now) in
  (if utcoffset now <? 0 then "-" else "+")
    ++ Py.pad2 (off / 3600) ++ Py.pad2 (off mod 3600 / 60)
    ++ (if off mod 60 =? 0 then "" else Py.pad2 (off mod 60)).

(** [now.strftime("%d.%m.%Y %H:%M:%S")] *)
Definition dmY_HMS (now : datetime) : string :=
  Py.pad2 (day now) ++ "." ++ Py.pad2 (month now) ++ "."
    ++ Py.pad4 (year now) ++ " " ++ Py.pad2 (hour now) ++ ":"
    ++ Py.pad2 (minute now) ++ ":" ++ Py.pad2 (second now).

End strftime.

(** An HTTP response: status code and decoded JSON body. *)
Record Response (J : Type) : Type := {
  status : Z;
  json : J
}.
Arguments status {J} _.
Arguments json {J} _.

(** JSON of the stop validation endpoint:
    [{status, stops: [{stopID, stopName, ezLines}]}]. *)
Record StopEntry : Type := {
  stopID : option Z;
  stopName : option string;
  ezLines : option (list string)
}.

Record StopInfoJson : Type := {
  j_status : option string;
  j_stops : option (list StopEntry)
}.

(** JSON of one departure:
    [{timeTableTrip: {timeTableLine: {line}, destinationStopName,
      ezTripDirection}, plannedDepartureTimestamp, delayMinutes,
      platformNumber}]. *)
Record TimeTableLine : Type := {
  line : option string
}.

Record TimeTableTrip : Type := {
  timeTableLine : option TimeTableLine;
  destinationStopName : option string;
  ezTripDirection : option string
}.

Record Departure : Type := {
  timeTableTrip : option TimeTableTrip;
  plannedDepartureTimestamp : option Z;
  delayMinutes : option Z;
  platformNumber : option string
}.

(** The empty dict [{}] given as default to [get]. *)
Definition empty_line : TimeTableLine := {| line := None |}.

Definition empty_trip : TimeTableTrip :=
  {| timeTableLine := None;
     destinationStopName := None;
     ezTripDirection := None |}.

(** JSON of the departures endpoint: [{departures: [...]}]. *)
Record DeparturesJson : Type := {
  j_departures : option (list Departure)
}.

(** What the outside world answers during one call: the session's [get] and
    [post] (each may raise instead of answering) and the two readings of
    [dt_util.now()] made by [_fetch_departures]. *)
Record World : Type := {
  session_get : string -> result (Response StopInfoJson);
  session_post : string -> string -> result (Response DeparturesJson);
  now_request : datetime;
  now_stamp : datetime
}.

(** ** config_flow.py *)

Module config_flow.

Definition validate_stop_id (w : World) (stop_id : string) : result unit :=
  match session_get w (STOP_INFO_API_ENDPOINT ++ "?ids=" ++ stop_id) with
  | inl (ClientError _) => inl CannotConnect
  | inl e => inl e
  | inr response =>
      if negb (status response =? 200) then inl CannotConnect
      else
        let data := json response in
        match j_stops data with
        | None | Some [] => inl InvalidStopId
        | Some (first :: _) =>
            match stopID first, stopName first, ezLines first with
            | None, None, None => inl InvalidStopId   (* not stops[0] *)
            | _, _, _ =>
                if negb (Py.truthy_int (stopID first)) then inl InvalidStopId
                else if negb (Py.str_int (Py.get (stopID first) 0)
                                =? stop_id)%string
                then inl InvalidStopId
                else inr tt
            end
        end
  end.

Definition generate_unique_id (stop_id : string) (filter_lines : list string)
    : string :=
  if negb (Py.truthy_list filter_lines) then stop_id
  else
    let sorted_lines := Py.sorted filter_lines in
    stop_id ++ "_" ++ Py.join "-" sorted_lines.

(** The character class [[,;]] of the regular expression. *)
Definition comma_or_semicolon (a : ascii) : bool :=
  Ascii.eqb a "," || Ascii.eqb a ";".

Definition parse_filter_lines (filter_lines : string) : list string :=
  if (filter_lines =? "")%string then []
  else
    (* Split by comma or semicolon *)
    let lines := Py.split_on comma_or_semicolon filter_lines in
    (* Strip whitespace and remove empty entries *)
    map Py.strip
      (filter (fun line => negb (Py.strip line =? "")%string) lines).

(** The form data of the user step: [stop_id] and [max_departures] are
    required by the schema, [filter_lines] is optional. *)
Record UserInput : Type := {
  ui_stop_id : string;
  ui_max_departures : Z;
  ui_filter_lines : option string
}.

(** The data stored with the entry: the form data, in which the text of
    [filter_lines] has been replaced by the parsed list when it was given
    and not empty, and is left as it was otherwise. *)
Record EntryData : Type := {
  ed_stop_id : string;
  ed_max_departures : Z;
  ed_filter_lines : option (string + list string)
}.

(** What the user step ends with: the form shown again (with
    [errors["base"]] when there is one), an entry created, or the flow
    aborted by [AbortFlow]. *)
Inductive FlowResult : Type :=
| show_form (errors : option string)
| create_entry (title : string) (data : EntryData)
| abort_flow.

(** [async_step_user].  [configured unique_id] tells whether the host
    already holds an entry with that unique id, which is when
    [_abort_if_unique_id_configured] raises [AbortFlow]. *)
Definition async_step_user (w : World) (configured : string -> bool)
    (user_input : option UserInput) : FlowResult :=
  match user_input with
  | None => show_form None
  | Some input =>
      let stop_id := ui_stop_id input in
      (* Validate the stop ID with the API *)
      match validate_stop_id w stop_id with
      | inl CannotConnect => show_form (Some "cannot_connect")
      | inl InvalidStopId => show_form (Some "invalid_stop_id")
      | inl _ => show_form (Some "unknown")
      | inr _ =>
          (* Parse filter lines *)
          let filter_lines :=
            if Py.truthy_str (ui_filter_lines input)
            then parse_filter_lines (Py.get (ui_filter_lines input) "")
            else [] in
          let stored :=
            if Py.truthy_str (ui_filter_lines input)
            then Some (inr filter_lines)
            else option_map inl (ui_filter_lines input) in
          (* Generate unique ID combining stop_id and filter_lines *)
          let unique_id := generate_unique_id stop_id filter_lines in
          (* Check if this combination is already configured *)
          if configured unique_id then abort_flow
          else
            (* Create entry title based on stop ID and filtered lines *)
            let title := "Bus Stop " ++ stop_id in
            let title :=
              if Py.truthy_list filter_lines
              then title ++ " (Lines: " ++ Py.join ", " filter_lines ++ ")"
              else title in
            create_entry title
              {| ed_stop_id := stop_id;
                 ed_max_departures := ui_max_departures input;
                 ed_filter_lines := stored |}
      end
  end.

End config_flow.

(** ** coordinator.py *)

(** The published snapshot: the dict returned by [_async_update_data], with
    its four keys. *)
Record Snapshot : Type := {
  d_departures : list Departure;
  d_stop_name : option string;
  d_stopping_lines : list string;
  d_last_update : string
}.

(** The coordinator object.  [stop_id], [stop_name], [stopping_lines] and
    [last_update] are the attributes set by [__init__]; [data] and
    [last_update_success] are those of the base class
    [DataUpdateCoordinator]; [direction] is the attribute that [__init__.py]
    passes to the constructor and [sensor.py] reads, although the
    constructor in [coordinator.py] does not declare it. *)
Record Coordinator : Type := {
  stop_id : string;
  stop_name : option string;
  stopping_lines : list string;
  last_update : string;
  direction : string;
  data : option Snapshot;
  last_update_success : bool
}.

Module coordinator.

(** Methods of the coordinator: they read and mutate [self] and may raise;
    the mutations made before a [raise] stay. *)
Definition M (A : Type) : Type := Coordinator -> result A * Coordinator.

Definition ret {A : Type} (a : A) : M A := fun self => (inr a, self).

Definition raise {A : Type} (e : exn) : M A := fun self => (inl e, self).

Definition bind {A B : Type} (m : M A) (k : A -> M B) : M B :=
  fun self =>
    match m self with
    | (inr a, self') => k a self'
    | (inl e, self') => (inl e, self')
    end.

(** [try: m except aiohttp.ClientError as err: handler err] *)
Definition except_ClientError {A : Type} (m : M A) (handler : string -> M A)
    : M A :=
  fun self =>
    match m self with
    | (inl (ClientError err), self') => handler err self'
    | r => r
    end.

Definition read {A : Type} (f : Coordinator -> A) : M A :=
  fun self => (inr (f self), self).

Definition set_stop_name (v : option string) : M unit :=
  fun self =>
    (inr tt,
     {| stop_id := stop_id self; stop_name := v;
        stopping_lines := stopping_lines self;
        last_update := last_update self; direction := direction self;
        data := data self;
        last_update_success := last_update_success self |}).

Definition set_stopping_lines (v : list string) : M unit :=
  fun self =>
    (inr tt,
     {| stop_id := stop_id self; stop_name := stop_name self;
        stopping_lines := v;
        last_update := last_update self; direction := direction self;
        data := data self;
        last_update_success := last_update_success self |}).

Definition set_last_update (v : string) : M unit :=
  fun self =>
    (inr tt,
     {| stop_id := stop_id self; stop_name := stop_name self;
        stopping_lines := stopping_lines self;
        last_update := v; direction := direction self;
        data := data self;
        last_update_success := last_update_success self |}).

(** [await call]: the awaited session call answers or raises. *)
Definition await {A : Type} (r : result A) : M A :=
  fun self => (r, self).

Declare Scope co_scope.
Delimit Scope co_scope with co.
Notation "x <- m ;; k" := (bind m (fun x => k))
  (at level 61, m at next level, right associativity) : co_scope.
Notation "m ;;; k" := (bind m (fun _ => k))
  (at level 61, right associativity) : co_scope.
Local Open Scope co_scope.

(** [f"{STOP_INFO_API_ENDPOINT}?ids={self.stop_id}"] *)
Definition stop_info_url (id : string) : string :=
  STOP_INFO_API_ENDPOINT ++ "?ids=" ++ id.

Definition _fetch_stop_info (w : World) : M unit :=
  except_ClientError
    (id <- read stop_id ;;
     let url := stop_info_url id in
     response <- await (session_get w url) ;;
     if negb (status response =? 200) then ret tt
     else
       let response_json := json response in
       if negb (Py.opt_str_eqb (j_status response_json) "ok")
          || negb (Py.truthy_list (Py.get (j_stops response_json) []))
       then ret tt
       else
         match Py.get (j_stops response_json) [] with
         | [] => ret tt   (* excluded by the test above *)
         | stop_data :: _ =>
             set_stop_name (stopName stop_data) ;;;
             set_stopping_lines (Py.get (ezLines stop_data) [])
         end)
    (fun err => ret tt).

(** The [date] field of the request. *)
Definition formatted_date (now : datetime) : string :=
  Py.replace ":" "%3A" (strftime.Ymd_plus_HM now)
    ++ Py.replace "+" "%2B" (Py.replace ":" "" (strftime.z now)).

(** The form-encoded body: the payload's items in insertion order. *)
Definition url_encoded_data (id : string) (now : datetime) : string :=
  let payload :=
    [("stopID", id); ("date", formatted_date now);
     ("filter", DEFAULT_FILTER); ("cityID", DEFAULT_CITY_ID)] in
  Py.join "&" (map (fun '(k, v) => k ++ "=" ++ v) payload).

Definition _fetch_departures (w : World) : M (list Departure) :=
  id <- read stop_id ;;
  let now := now_request w in
  response <-
    await (session_post w DEPARTURES_API_ENDPOINT (url_encoded_data id now)) ;;
  if negb (status response =? 200) then
    raise (UpdateFailed
             ("Invalid response from API: " ++ Py.str_int (status response)))
  else
    let response_json := json response in
    match j_departures response_json with
    | None =>
        (* [return {[]}]: a set display holding a list, which is unhashable *)
        raise (TypeError "unhashable type: 'list'")
    | Some departures =>
        set_last_update (strftime.dmY_HMS (now_stamp w)) ;;;
        ret departures
    end.

Definition _async_update_data (w : World) : M Snapshot :=
  except_ClientError
    (name <- read stop_name ;;
     (match name with
      | None => _fetch_stop_info w
      | Some _ => ret tt
      end) ;;;
     departures <- _fetch_departures w ;;
     name <- read stop_name ;;
     lines <- read stopping_lines ;;
     stamp <- read last_update ;;
     ret {| d_departures := departures;
            d_stop_name := name;
            d_stopping_lines := lines;
            d_last_update := stamp |})
    (fun err => raise (UpdateFailed ("Error communicating with API: " ++ err))).

(** What the handler of [_async_update_data] makes of an exception:
    [except aiohttp.ClientError as err: raise UpdateFailed(...) from err]. *)
Definition converted (e : exn) : exn :=
  match e with
  | ClientError err => UpdateFailed ("Error communicating with API: " ++ err)
  | _ => e
  end.

(** Modelled from the spec: one refresh cycle of the host's
    [DataUpdateCoordinator] base class, which is not under [src/].  The
    cycle calls [_async_update_data]; on success it publishes the returned
    snapshot as [data]; on any failure it records the failure and leaves
    [data] as it was (the last-good snapshot is retained for readers). *)
Definition async_refresh (w : World) (self : Coordinator) : Coordinator :=
  match _async_update_data w self with
  | (inr snapshot, self') =>
      {| stop_id := stop_id self'; stop_name := stop_name self';
         stopping_lines := stopping_lines self';
         last_update := last_update self'; direction := direction self';
         data := Some snapshot;
         last_update_success := true |}
  | (inl _, self') =>
      {| stop_id := stop_id self'; stop_name := stop_name self';
         stopping_lines := stopping_lines self';
         last_update := last_update self'; direction := direction self';
         data := data self';
         last_update_success := false |}
  end.

End coordinator.

(** ** sensor.py *)

(** The host's clock and time zone.  [utcnow_timestamp k] is the value of
    [int(dt_util.utcnow().timestamp())] at the [k]-th reading of the clock;
    [as_local_HM t] is
    [dt_util.as_local(datetime.fromtimestamp(t, tz=UTC)).strftime("%H:%M")]. *)
Class Host : Type := {
  utcnow_timestamp : nat -> Z;
  as_local_HM : Z -> string
}.

(** The sensor entity: the attributes the two properties read. *)
Record Sensor : Type := {
  _max_departures : Z;
  _filter_lines : list string;
  _direction : string
}.

(** One element of the [departures] attribute; the fields are the keys of
    the dict that [extra_state_attributes] appends, spelled as there. *)
Record DepartureAttributes : Type := {
  attr_line : string;
  attr_planed_departure : option Z;
  attr_planed_departure_formatted : option string;
  attr_delay : Z;
  attr_departute_calculated : option Z;
  attr_calculated_departure_formatted : option string;
  attr_seconds_until_departure : option Z;
  attr_minutes_until_departure : option Z;
  attr_destination : string;
  attr_platform : option string;
  attr_direction : option string
}.

(** The attribute bag returned by [extra_state_attributes]. *)
Record Attributes : Type := {
  at_last_update : string;
  at_departures : list DepartureAttributes;
  at_stop_name : option string;
  at_stopping_lines : list string;
  at_max_departures : Z;
  at_filter_lines : list string;
  at_direction : string
}.

Module sensor.

(** Code that reads the clock: the state is the number of readings made. *)
Definition Clock (A : Type) : Type := nat -> A * nat.

Definition ret {A : Type} (a : A) : Clock A := fun k => (a, k).

Definition bind {A B : Type} (m : Clock A) (f : A -> Clock B) : Clock B :=
  fun k => let (a, k') := m k in f a k'.

Declare Scope clock_scope.
Delimit Scope clock_scope with clock.
Notation "x <- m ;; f" := (bind m (fun x => f))
  (at level 61, m at next level, right associativity) : clock_scope.
Local Open Scope clock_scope.

(** [for x in l: s = body x s] *)
Fixpoint for_each {A S : Type} (l : list A) (body : A -> S -> Clock S) (s : S)
    : Clock S :=
  match l with
  | [] => ret s
  | x :: l' => s' <- body x s ;; for_each l' body s'
  end.

(** The chained lookups that the source repeats for every use. *)

(** [departure.get("timeTableTrip", {}).get("timeTableLine", {}).get("line")] *)
Definition get_line (departure : Departure) : option string :=
  line (Py.get (timeTableLine (Py.get (timeTableTrip departure) empty_trip))
          empty_line).

(** [departure.get("timeTableTrip", {}).get("destinationStopName")] *)
Definition get_destination (departure : Departure) : option string :=
  destinationStopName (Py.get (timeTableTrip departure) empty_trip).

(** [departure.get("timeTableTrip", {}).get("ezTripDirection")] *)
Definition get_direction (departure : Departure) : option string :=
  ezTripDirection (Py.get (timeTableTrip departure) empty_trip).

Section WithHost.
Context `{Directions} `{Host}.

Definition utcnow : Clock Z := fun k => (utcnow_timestamp k, S k).

Definition _calculate_departure_time (planned_timestamp delay_minutes : Z)
    : Z :=
  planned_timestamp + delay_minutes * 60.

Definition _calculate_time_until_departure (departure_calculated : option Z)
    : Clock (option Z) :=
  match departure_calculated with
  | None => ret None
  | Some calculated =>
      current_timestamp <- utcnow ;;
      ret (Some (calculated - current_timestamp))
  end.

Definition _should_include_departure (self : Sensor) (departure : Departure)
    : bool :=
  (* First check line filter *)
  if Py.truthy_list (_filter_lines self)
     && (let line := get_line departure in
         negb (Py.truthy_str line)
         || negb (Py.str_in (Py.get line "") (_filter_lines self)))
  then false
  (* Then check direction filter *)
  else if negb (_direction self =? DIRECTION_ALL)%string then
    let departure_direction := get_direction departure in
    if (_direction self =? DIRECTION_HERE)%string
       && negb (Py.opt_str_eqb departure_direction "here")
    then false
    else if negb (_direction self =? DIRECTION_HERE)%string
            && Py.opt_str_eqb departure_direction "here"
    then false
    else true
  else true.

Definition native_value (self : Sensor) (c : Coordinator)
    : Clock (option string) :=
  match data c with
  | None => ret None
  | Some d =>
      (* Apply both line and direction filtering *)
      let filtered_departures :=
        filter (_should_include_departure self) (d_departures d) in
      match filtered_departures with
      | [] => ret None
      | next_departure :: _ =>
          let line := Py.get (get_line next_departure) "Unknown" in
          let destination :=
            Py.get (get_destination next_departure) "Unknown" in
          let planned_timestamp := plannedDepartureTimestamp next_departure in
          let delay_minutes := Py.get (delayMinutes next_departure) 0 in
          if negb (Py.truthy_int planned_timestamp) then
            ret (Some (line ++ " -> " ++ destination))
          else
            let departure_calculated :=
              _calculate_departure_time (Py.get planned_timestamp 0)
                delay_minutes in
            time_until_departure_seconds <-
              _calculate_time_until_departure (Some departure_calculated) ;;
            let minutes_until_departure :=
              match time_until_departure_seconds with
              | None => 0
              | Some seconds =>
                  if seconds <=? 0 then 0 else Py.int_truediv seconds 60
              end in
            ret (Some (line ++ " -> " ++ destination ++ " in "
                         ++ Py.str_int minutes_until_departure ++ " min"))
      end
  end.

(** The body of the loop of [extra_state_attributes]: the dict appended for
    one departure. *)
Definition departure_attributes (departure : Departure)
    : Clock DepartureAttributes :=
  let planned_timestamp := plannedDepartureTimestamp departure in
  let delay_minutes := Py.get (delayMinutes departure) 0 in
  (* Calculate departure_calculated once to reuse *)
  calculated <-
    (if Py.truthy_int planned_timestamp then
       let departure_calculated :=
         Some (_calculate_departure_time (Py.get planned_timestamp 0)
                 delay_minutes) in
       time_until <- _calculate_time_until_departure departure_calculated ;;
       ret (departure_calculated, time_until)
     else ret (None, None)) ;;
  let departure_calculated := fst calculated in
  let time_until_calculated_departure := snd calculated in
  ret {|
    attr_line := Py.get (get_line departure) "Unknown";
    attr_planed_departure := planned_timestamp;
    attr_planed_departure_formatted :=
      if Py.truthy_int planned_timestamp
      then Some (as_local_HM (Py.get planned_timestamp 0))
      else None;
    attr_delay := delay_minutes;
    attr_departute_calculated := departure_calculated;
    attr_calculated_departure_formatted :=
      if Py.truthy_int departure_calculated
      then Some (as_local_HM (Py.get departure_calculated 0))
      else None;
    attr_seconds_until_departure :=
      if Py.truthy_int departure_calculated
      then time_until_calculated_departure
      else None;
    attr_minutes_until_departure :=
      if Py.truthy_int departure_calculated
         && Py.truthy_int time_until_calculated_departure
      then Some (Py.int_truediv (Py.get time_until_calculated_departure 0) 60)
      else None;
    attr_destination := Py.get (get_destination departure) "Unknown";
    attr_platform := platformNumber departure;
    attr_direction := get_direction departure
  |}.

Definition extra_state_attributes (self : Sensor) (c : Coordinator)
    : Clock (result Attributes) :=
  match data c with
  | None =>
      (* [self.coordinator.data.get("last_update")] on [None] *)
      ret (inl (AttributeError "'NoneType' object has no attribute 'get'"))
  | Some d =>
      (* the snapshot dict has four keys and is not empty *)
      let stop_name :=
        if Py.truthy_str (d_stop_name d) then d_stop_name d else None in
      let stopping_lines :=
        if Py.truthy_list (d_stopping_lines d) then d_stopping_lines d
        else [] in
      (* Filter departures using the _should_include_departure method *)
      let filtered_departures :=
        filter (_should_include_departure self) (d_departures d) in
      (* Apply max_departures limit *)
      departures <-
        for_each (Py.slice_to filtered_departures (_max_departures self))
          (fun departure acc =>
             entry <- departure_attributes departure ;;
             ret (acc ++ [entry])%list)
          [] ;;
      ret (inr {|
        at_last_update := d_last_update d;
        at_departures := departures;
        at_stop_name := stop_name;
        at_stopping_lines := stopping_lines;
        at_max_departures := _max_departures self;
        at_filter_lines := _filter_lines self;
        at_direction := direction c
      |})
  end.

End WithHost.

End sensor.

(** ** The responses as they arrive: untyped JSON

    The records above give the responses the types of the documented
    envelope.  What [response.json()] returns is any JSON value; this
    module embeds the code that reads the responses on such values, with
    the exceptions Python raises on a value of the wrong kind.  A JSON
    number is an integer here; a fractional number is outside the model. *)

Module wire.

Unset Elimination Schemes.
Inductive json : Type :=
| JNull
| JBool (b : bool)
| JInt (n : Z)
| JStr (s : string)
| JList (l : list json)
| JDict (items : list (string * json)).
Set Elimination Schemes.

(** [type(x).__name__] *)
Definition type_name (x : json) : string :=
  match x with
  | JNull => "NoneType"
  | JBool _ => "bool"
  | JInt _ => "int"
  | JStr _ => "str"
  | JList _ => "list"
  | JDict _ => "dict"
  end.

(** Truth value of a JSON value. *)
Definition truthy (x : json) : bool :=
  match x with
  | JNull => false
  | JBool b => b
  | JInt n => negb (n =? 0)
  | JStr s => negb (s =? "")%string
  | JList l => Py.truthy_list l
  | JDict items => Py.truthy_list items
  end.

(** The value stored under [key] in the items of a dict. *)
Fixpoint lookup (key : string) (items : list (string * json)) : option json :=
  match items with
  | [] => None
  | (k, v) :: items' => if (k =? key)%string then Some v else lookup key items'
  end.

(** [x.get(key, default)]: only a dict has the method. *)
Definition get (x : json) (key : string) (default : json) : result json :=
  match x with
  | JDict items => inr (Py.get (lookup key items) default)
  | _ =>
      inl (AttributeError
             ("'" ++ type_name x ++ "' object has no attribute 'get'"))
  end.

(** [x == s] and [x != s] against a string, [x in l] for a list of strings:
    only a string is equal to a string. *)
Definition eq_str (x : json) (s : string) : bool :=
  match x with
  | JStr s' => (s' =? s)%string
  | _ => false
  end.

Definition in_strs (x : json) (l : list string) : bool :=
  match x with
  | JStr s => Py.str_in s l
  | _ => false
  end.

(** The first character of a string in UTF-8: its first byte and the
    continuation bytes (128 to 191) that follow it. *)
Fixpoint continuation (s : string) : string :=
  match s with
  | EmptyString => EmptyString
  | String a s' =>
      if ((128 <=? nat_of_ascii a) && (nat_of_ascii a <=? 191))%nat
      then String a (continuation s')
      else EmptyString
  end.

Definition first_character (s : string) : string :=
  match s with
  | EmptyString => EmptyString
  | String a s' => String a (continuation s')
  end.

(** [x[0]] *)
Definition subscript0 (x : json) : result json :=
  match x with
  | JList (first :: _) => inr first
  | JList [] => inl (IndexError "list index out of range")
  | JStr EmptyString => inl (IndexError "string index out of range")
  | JStr s => inr (JStr (first_character s))
  | JDict _ => inl (KeyError "0")
  | _ =>
      inl (TypeError ("'" ++ type_name x ++ "' object is not subscriptable"))
  end.

(** The built-ins whose full behaviour is not needed: [int] on a string
    ([None] when the string is no integer literal), [repr] of a list or
    dict, which an f-string writes for such a value, and the timestamps
    that [datetime.fromtimestamp] accepts, with the exception it raises on
    any other (a [ValueError], [OverflowError] or [OSError], by
    platform). *)
Class Builtins : Type := {
  int_of_str : string -> option Z;
  repr : json -> string;
  fromtimestamp_accepts : Z -> bool;
  fromtimestamp_error : Z -> exn
}.

Definition bind {A B : Type} (r : result A) (k : A -> result B) : result B :=
  match r with
  | inl e => inl e
  | inr a => k a
  end.

(** [try: r except aiohttp.ClientError as err: handler err] *)
Definition except_ClientError {A : Type} (r : result A)
    (handler : string -> result A) : result A :=
  match r with
  | inl (ClientError err) => handler err
  | _ => r
  end.

(** Code that reads the clock and may raise. *)
Definition Clock (A : Type) : Type := nat -> result A * nat.

Definition ret {A : Type} (a : A) : Clock A := fun k => (inr a, k).

Definition lift {A : Type} (r : result A) : Clock A := fun k => (r, k).

Definition bind_clock {A B : Type} (m : Clock A) (f : A -> Clock B)
    : Clock B :=
  fun k =>
    match m k with
    | (inl e, k') => (inl e, k')
    | (inr a, k') => f a k'
    end.

Declare Scope wire_scope.
Delimit Scope wire_scope with wire.
Notation "x <- r ;; k" := (bind r (fun x => k))
  (at level 61, r at next level, right associativity) : wire_scope.
Notation "x <-- m ;; f" := (bind_clock m (fun x => f))
  (at level 61, m at next level, right associativity) : wire_scope.
Local Open Scope wire_scope.

(** [[x for x in l if test(x)]] with a test that may raise. *)
Fixpoint comprehension (test : json -> result bool) (l : list json)
    : result (list json) :=
  match l with
  | [] => inr []
  | x :: l' =>
      keep <- test x ;;
      rest <- comprehension test l' ;;
      inr (if keep then x :: rest else rest)
  end.

(** [for x in l: s = body x s] *)
Fixpoint for_each {A S : Type} (l : list A) (body : A -> S -> Clock S) (s : S)
    : Clock S :=
  match l with
  | [] => ret s
  | x :: l' => s' <-- body x s ;; for_each l' body s'
  end.

(** One element of the [departures] attribute, with the values that are
    copied from the response as they are. *)
Record Entry : Type := {
  entry_line : json;
  entry_planed_departure : json;
  entry_planed_departure_formatted : option string;
  entry_delay : json;
  entry_departute_calculated : option Z;
  entry_calculated_departure_formatted : option string;
  entry_seconds_until_departure : option Z;
  entry_minutes_until_departure : option Z;
  entry_destination : json;
  entry_platform : json;
  entry_direction : json
}.

(** A response whose body has not been decoded yet: [decoded] is what
    [await response.json()] returns or raises. *)
Record Response : Type := {
  code : Z;
  decoded : result json
}.

Section WithBuiltins.
Context `{Directions} `{Host} `{Builtins}.

(** [int(x)] *)
Definition int (x : json) : result Z :=
  match x with
  | JInt n => inr n
  | JBool b => inr (Z.b2z b)
  | JStr s =>
      match int_of_str s with
      | Some n => inr n
      | None => inl (ValueError s)
      end
  | _ =>
      inl (TypeError
             ("int() argument must be a string, a bytes-like object or a "
                ++ "real number, not '" ++ type_name x ++ "'"))
  end.

(** What an f-string writes for [x]. *)
Definition str (x : json) : string :=
  match x with
  | JStr s => s
  | JInt n => Py.str_int n
  | JNull => "None"
  | JBool true => "True"
  | JBool false => "False"
  | _ => repr x
  end.

(** The argument of [datetime.fromtimestamp]: a number. *)
Definition timestamp (x : json) : result Z :=
  match x with
  | JInt n => inr n
  | JBool b => inr (Z.b2z b)
  | _ =>
      inl (TypeError
             ("'" ++ type_name x
                ++ "' object cannot be interpreted as an integer"))
  end.

(** [dt_util.as_local(datetime.fromtimestamp(t, tz=dt_util.UTC))
      .strftime("%H:%M")] *)
Definition local_HM (t : Z) : result string :=
  if fromtimestamp_accepts t then inr (as_local_HM t)
  else inl (fromtimestamp_error t).

(** [departure.get("timeTableTrip", {}).get("timeTableLine", {})
      .get("line", default)] *)
Definition get_line (departure default : json) : result json :=
  trip <- get departure "timeTableTrip" (JDict []) ;;
  line <- get trip "timeTableLine" (JDict []) ;;
  get line "line" default.

(** [departure.get("timeTableTrip", {}).get("destinationStopName",
      default)] *)
Definition get_destination (departure default : json) : result json :=
  trip <- get departure "timeTableTrip" (JDict []) ;;
  get trip "destinationStopName" default.

(** [departure.get("timeTableTrip", {}).get("ezTripDirection", None)] *)
Definition get_direction (departure : json) : result json :=
  trip <- get departure "timeTableTrip" (JDict []) ;;
  get trip "ezTripDirection" JNull.

Definition utcnow : Clock Z := fun k => (inr (utcnow_timestamp k), S k).

Definition _should_include_departure (self : Sensor) (departure : json)
    : result bool :=
  (* First check line filter *)
  excluded <-
    (if Py.truthy_list (_filter_lines self) then
       line <- get_line departure JNull ;;
       inr (negb (truthy line) || negb (in_strs line (_filter_lines self)))
     else inr false) ;;
  if excluded then inr false
  (* Then check direction filter *)
  else if negb (_direction self =? DIRECTION_ALL)%string then
    departure_direction <- get_direction departure ;;
    if (_direction self =? DIRECTION_HERE)%string
       && negb (eq_str departure_direction "here")
    then inr false
    else if negb (_direction self =? DIRECTION_HERE)%string
            && eq_str departure_direction "here"
    then inr false
    else inr true
  else inr true.

(** [native_value] on the [departures] of a published snapshot. *)
Definition native_value (self : Sensor) (departures : list json)
    : Clock (option string) :=
  filtered_departures <--
    lift (comprehension (_should_include_departure self) departures) ;;
  match filtered_departures with
  | [] => ret None
  | next_departure :: _ =>
      line <-- lift (get_line next_departure (JStr "Unknown")) ;;
      destination <--
        lift (get_destination next_departure (JStr "Unknown")) ;;
      planned_timestamp <--
        lift (get next_departure "plannedDepartureTimestamp" JNull) ;;
      delay_minutes <-- lift (get next_departure "delayMinutes" (JInt 0)) ;;
      if negb (truthy planned_timestamp) then
        ret (Some (str line ++ " -> " ++ str destination))
      else
        planned <-- lift (int planned_timestamp) ;;
        delay <-- lift (int delay_minutes) ;;
        let departure_calculated := planned + delay * 60 in
        current_timestamp <-- utcnow ;;
        let seconds := departure_calculated - current_timestamp in
        let minutes_until_departure :=
          if seconds <=? 0 then 0 else Py.int_truediv seconds 60 in
        ret (Some (str line ++ " -> " ++ str destination ++ " in "
                     ++ Py.str_int minutes_until_departure ++ " min"))
  end.

(** The body of the loop of [extra_state_attributes]. *)
Definition departure_attributes (departure : json) : Clock Entry :=
  planned_timestamp <--
    lift (get departure "plannedDepartureTimestamp" JNull) ;;
  delay_minutes <-- lift (get departure "delayMinutes" (JInt 0)) ;;
  calculated <--
    (if truthy planned_timestamp then
       planned <-- lift (int planned_timestamp) ;;
       delay <-- lift (int delay_minutes) ;;
       let departure_calculated := planned + delay * 60 in
       current_timestamp <-- utcnow ;;
       ret (Some departure_calculated,
            Some (departure_calculated - current_timestamp))
     else ret (None, None)) ;;
  let departure_calculated := fst calculated in
  let time_until_calculated_departure := snd calculated in
  line <-- lift (get_line departure (JStr "Unknown")) ;;
  planned_formatted <--
    (if truthy planned_timestamp then
       t <-- lift (timestamp planned_timestamp) ;;
       formatted <-- lift (local_HM t) ;;
       ret (Some formatted)
     else ret None) ;;
  calculated_formatted <--
    (if Py.truthy_int departure_calculated then
       formatted <-- lift (local_HM (Py.get departure_calculated 0)) ;;
       ret (Some formatted)
     else ret None) ;;
  destination <-- lift (get_destination departure (JStr "Unknown")) ;;
  platform <-- lift (get departure "platformNumber" JNull) ;;
  direction <-- lift (get_direction departure) ;;
  ret {|
    entry_line := line;
    entry_planed_departure := planned_timestamp;
    entry_planed_departure_formatted := planned_formatted;
    entry_delay := delay_minutes;
    entry_departute_calculated := departure_calculated;
    entry_calculated_departure_formatted := calculated_formatted;
    entry_seconds_until_departure :=
      if Py.truthy_int departure_calculated
      then time_until_calculated_departure
      else None;
    entry_minutes_until_departure :=
      if Py.truthy_int departure_calculated
         && Py.truthy_int time_until_calculated_departure
      then Some (Py.int_truediv (Py.get time_until_calculated_departure 0) 60)
      else None;
    entry_destination := destination;
    entry_platform := platform;
    entry_direction := direction
  |}.

(** The [departures] attribute of [extra_state_attributes] on the
    [departures] of a published snapshot. *)
Definition departures_attribute (self : Sensor) (departures : list json)
    : Clock (list Entry) :=
  filtered_departures <--
    lift (comprehension (_should_include_departure self) departures) ;;
  for_each (Py.slice_to filtered_departures (_max_departures self))
    (fun departure acc =>
       entry <-- departure_attributes departure ;;
       ret (acc ++ [entry])%list)
    [].

End WithBuiltins.

(** [_fetch_stop_info] on an undecoded response.  The method has no effect
    but its two assignments: the result is [None] when it returns without
    assigning, and the values assigned to [stop_name] and [stopping_lines]
    otherwise. *)
Definition _fetch_stop_info (session_get : string -> result Response)
    (stop_id : string) : result (option (json * json)) :=
  except_ClientError
    (response <- session_get (coordinator.stop_info_url stop_id) ;;
     if negb (code response =? 200) then inr None
     else
       response_json <- decoded response ;;
       envelope_status <- get response_json "status" JNull ;;
       if negb (eq_str envelope_status "ok") then inr None
       else
         stops <- get response_json "stops" JNull ;;
         if negb (truthy stops) then inr None
         else
           (* [response_json["stops"][0]]: the key is there *)
           stop_data <- subscript0 stops ;;
           stop_name <- get stop_data "stopName" JNull ;;
           stopping_lines <- get stop_data "ezLines" (JList []) ;;
           inr (Some (stop_name, stopping_lines)))
    (fun err => inr None).

(** A typed record as the JSON object it was decoded from: the keys whose
    value is present, in the order of the envelope. *)
Definition object (fields : list (string * option json)) : json :=
  JDict
    (flat_map (fun '(key, value) =>
                 match value with
                 | Some v => [(key, v)]
                 | None => []
                 end) fields).

Definition of_line (l : TimeTableLine) : json :=
  object [("line", option_map JStr (line l))].

Definition of_trip (t : TimeTableTrip) : json :=
  object [("timeTableLine", option_map of_line (timeTableLine t));
          ("destinationStopName", option_map JStr (destinationStopName t));
          ("ezTripDirection", option_map JStr (ezTripDirection t))].

Definition of_departure (d : Departure) : json :=
  object [("timeTableTrip", option_map of_trip (timeTableTrip d));
          ("plannedDepartureTimestamp",
           option_map JInt (plannedDepartureTimestamp d));
          ("delayMinutes", option_map JInt (delayMinutes d));
          ("platformNumber", option_map JStr (platformNumber d))].

Definition of_stop (s : StopEntry) : json :=
  object [("stopID", option_map JInt (stopID s));
          ("stopName", option_map JStr (stopName s));
          ("ezLines",
           option_map (fun l => JList (map JStr l)) (ezLines s))].

Definition of_stop_info (j : StopInfoJson) : json :=
  object [("status", option_map JStr (j_status j));
          ("stops",
           option_map (fun l => JList (map of_stop l)) (j_stops j))].

(** The timestamps of a departure that [extra_state_attributes] formats
    are ones [datetime.fromtimestamp] accepts. *)
Definition timestamps_accepted `{Builtins} (d : Departure) : bool :=
  match plannedDepartureTimestamp d with
  | Some planned =>
      (planned =? 0)
      || (fromtimestamp_accepts planned
          && ((planned + Py.get (delayMinutes d) 0 * 60 =? 0)
              || fromtimestamp_accepts
                   (planned + Py.get (delayMinutes d) 0 * 60)))
  | None => true
  end.

(** [None] of a typed optional value is JSON null once it is assigned. *)
Definition of_option (value : option string) : json :=
  match value with
  | Some s => JStr s
  | None => JNull
  end.

(** A typed entry as the values the code builds. *)
Definition of_entry (e : DepartureAttributes) : Entry :=
  {| entry_line := JStr (attr_line e);
     entry_planed_departure :=
       match attr_planed_departure e with
       | Some p => JInt p
       | None => JNull
       end;
     entry_planed_departure_formatted := attr_planed_departure_formatted e;
     entry_delay := JInt (attr_delay e);
     entry_departute_calculated := attr_departute_calculated e;
     entry_calculated_departure_formatted :=
       attr_calculated_departure_formatted e;
     entry_seconds_until_departure := attr_seconds_until_departure e;
     entry_minutes_until_departure := attr_minutes_until_departure e;
     entry_destination := JStr (attr_destination e);
     entry_platform := of_option (attr_platform e);
     entry_direction := of_option (attr_direction e) |}.

End wire.

(** ** Concrete values for the examples *)

Module example.

(** The values the comments of [helpers.py] and [sensor.py] give to the two
    direction constants. *)
Definition directions : Directions :=
  {| DIRECTION_ALL := "all"; DIRECTION_HERE := "here" |}.

(** A host in the UTC zone whose clock always reads [now]. *)
Definition host (now : Z) : Host :=
  {| utcnow_timestamp := fun _ => now;
     as_local_HM := fun t =>
       Py.pad2 (t mod 86400 / 3600) ++ ":" ++ Py.pad2 (t mod 3600 / 60) |}.

Definition departure (l dest : option string) (planned delay : option Z)
    (tag : option string) : Departure :=
  {| timeTableTrip :=
       Some {| timeTableLine := Some {| line := l |};
               destinationStopName := dest;
               ezTripDirection := tag |};
     plannedDepartureTimestamp := planned;
     delayMinutes := delay;
     platformNumber := None |}.

(** A coordinator for stop "123" that has published [departures]. *)
Definition published (departures : list Departure) : Coordinator :=
  {| stop_id := "123"; stop_name := Some "Hlavna stanica";
     stopping_lines := ["21"; "39"]; last_update := "12.10.2026 14:30:00";
     direction := "all";
     data := Some {| d_departures := departures;
                     d_stop_name := Some "Hlavna stanica";
                     d_stopping_lines := ["21"; "39"];
                     d_last_update := "12.10.2026 14:30:00" |};
     last_update_success := true |}.

Definition sensor_all (max_departures : Z) (filter_lines : list string)
    : Sensor :=
  {| _max_departures := max_departures;
     _filter_lines := filter_lines;
     _direction := "all" |}.

Definition noon : datetime :=
  {| year := 2026; month := 10; day := 12; hour := 14; minute := 30;
     second := 0; utcoffset := 7200 |}.

(** A world whose session answers every [get] with [stop_info] and every
    [post] with [board], at the instant [noon]. *)
Definition world (stop_info : result (Response StopInfoJson))
    (board : result (Response DeparturesJson)) : World :=
  {| session_get := fun _ => stop_info;
     session_post := fun _ _ => board;
     now_request := noon;
     now_stamp := noon |}.

(** A freshly constructed coordinator for stop "123". *)
Definition fresh : Coordinator :=
  {| stop_id := "123"; stop_name := None; stopping_lines := [];
     last_update := ""; direction := "all"; data := None;
     last_update_success := true |}.

(** A well-formed answer of the stop endpoint about another stop, 999. *)
Definition other_stop : Response StopInfoJson :=
  {| status := 200;
     json := {| j_status := Some "ok";
                j_stops := Some [{| stopID := Some 999;
                                    stopName := Some "Patronka";
                                    ezLines := Some ["7"] |}] |} |}.

(** A well-formed answer of the stop endpoint about stop 123. *)
Definition this_stop : Response StopInfoJson :=
  {| status := 200;
     json := {| j_status := Some "ok";
                j_stops := Some [{| stopID := Some 123;
                                    stopName := Some "Hlavna stanica";
                                    ezLines := Some ["21"; "39"] |}] |} |}.

(** A well-formed answer of the departures endpoint carrying [departures]. *)
Definition board (departures : list Departure) : Response DeparturesJson :=
  {| status := 200; json := {| j_departures := Some departures |} |}.

(** An answer of the departures endpoint with status 200 whose JSON object
    has no [departures] key. *)
Definition no_departures_field : Response DeparturesJson :=
  {| status := 200; json := {| j_departures := None |} |}.

(** Built-ins for the examples on untyped JSON: no string is a number,
    and [fromtimestamp] accepts the years 1 to 9999. *)
Definition builtins : wire.Builtins :=
  {| wire.int_of_str := fun _ => None;
     wire.repr := fun _ => "";
     wire.fromtimestamp_accepts :=
       fun t => (-62135596800 <=? t) && (t <=? 253402300799);
     wire.fromtimestamp_error :=
       fun _ => ValueError "year is out of range" |}.

(** The JSON object [{"timeTableTrip": null}]. *)
Definition null_trip : wire.json :=
  wire.JDict [("timeTableTrip", wire.JNull)].

(** The JSON object [{"plannedDepartureTimestamp": 5, "delayMinutes":
    null}]. *)
Definition null_delay : wire.json :=
  wire.JDict [("plannedDepartureTimestamp", wire.JInt 5);
              ("delayMinutes", wire.JNull)].

(** A departure none of whose fields is present: the JSON object [{}]. *)
Definition empty_departure : Departure :=
  {| timeTableTrip := None; plannedDepartureTimestamp := None;
     delayMinutes := None; platformNumber := None |}.

(** An answer of the stop endpoint, status 200, whose body is [body]. *)
Definition stop_answer (body : wire.json) : string -> result wire.Response :=
  fun _ => inr {| wire.code := 200; wire.decoded := inr body |}.

End example.

(** ** Predicates used in the statements *)

(** A list of strings in ascending (non-decreasing) order. *)
Definition ascending (l : list string) : Prop :=
  StronglySorted (fun a b => String.leb a b = true) l.

(** [entry] is the dict that the loop of [extra_state_attributes] appends
    for [departure], at some reading of the clock. *)
Definition entry_of `{Directions} `{Host}
    (departure : Departure) (entry : DepartureAttributes) : Prop :=
  exists k : nat, entry = fst (sensor.departure_attributes departure k).

(** Every character of the string satisfies [p]. *)
Fixpoint forallb_str (p : ascii -> bool) (s : string) : bool :=
  match s with
  | EmptyString => true
  | String a s' => p a && forallb_str p s'
  end.

(** The string begins with a whitespace character of [str.strip()]. *)
Definition starts_with_space (s : string) : bool :=
  match s with
  | EmptyString => false
  | String a s1 =>
      Py.isspace1 a
      || match s1 with
         | EmptyString => false
         | String b s2 =>
             Py.isspace2 a b
             || match s2 with
                | EmptyString => false
                | String c _ => Py.isspace3 a b c
                end
         end
  end.

(** The same on the string read backwards. *)
Definition starts_with_space_rev (s : string) : bool :=
  match s with
  | EmptyString => false
  | String c s1 =>
      Py.isspace1 c
      || match s1 with
         | EmptyString => false
         | String b s2 =>
             Py.isspace2 b c
             || match s2 with
                | EmptyString => false
                | String a _ => Py.isspace3 a b c
                end
         end
  end.

(** The string ends with a whitespace character of [str.strip()]. *)
Definition ends_with_space (s : string) : bool :=
  starts_with_space_rev (Py.str_rev s).

(** A line identifier as [parse_filter_lines] returns them: not empty, no
    whitespace at either end, no comma and no semicolon. *)
Definition canonical_line (s : string) : Prop :=
  s <> ""
  /\ starts_with_space s = false
  /\ ends_with_space s = false
  /\ forallb_str (fun a => negb (config_flow.comma_or_semicolon a)) s = true.

(** * Properties *)

(** ** Facts about the built-ins *)

Section PyFacts.

Lemma append_empty_r (s : string) : s ++ "" = s.
Proof. induction s as [|a s IH]; simpl; [reflexivity|now rewrite IH]. Qed.

Lemma string_compare_refl (s : string) : String.compare s s = Eq.
Proof.
  induction s as [|a s IH]; simpl; [reflexivity|].
  unfold Ascii.compare. now rewrite N.compare_refl.
Qed.

Lemma string_leb_refl (s : string) : String.leb s s = true.
Proof. unfold String.leb. now rewrite string_compare_refl. Qed.

Lemma string_compare_le_trans (a b c : string) :
  String.compare a b <> Gt -> String.compare b c <> Gt ->
  String.compare a c <> Gt.
Proof.
  revert b c.
  induction a as [|x a IH]; intros [|y b] [|z c]; simpl; try congruence.
  unfold Ascii.compare.
  destruct (N.compare_spec (N_of_ascii x) (N_of_ascii y)) as [Exy|Lxy|Gxy];
    try congruence;
    destruct (N.compare_spec (N_of_ascii y) (N_of_ascii z)) as [Eyz|Lyz|Gyz];
    try congruence;
    destruct (N.compare_spec (N_of_ascii x) (N_of_ascii z)) as [Exz|Lxz|Gxz];
    try congruence; try lia.
  intros; now apply (IH b c).
Qed.

Lemma string_leb_trans (a b c : string) :
  String.leb a b = true -> String.leb b c = true -> String.leb a c = true.
Proof.
  unfold String.leb. intros Hab Hbc.
  pose proof (string_compare_le_trans a b c) as T.
  destruct (String.compare a b); try discriminate;
    destruct (String.compare b c); try discriminate;
    destruct (String.compare a c); try reflexivity;
    exfalso; apply T; congruence.
Qed.

Lemma string_leb_false (a b : string) :
  String.leb a b = false -> String.leb b a = true.
Proof.
  intros F. destruct (String.leb_total a b) as [T|T]; congruence.
Qed.

Lemma insert_perm (x : string) (l : list string) :
  Permutation (Py.insert x l) (x :: l).
Proof.
  induction l as [|y l IH]; simpl; [reflexivity|].
  destruct (String.leb x y); [reflexivity|].
  rewrite IH. apply perm_swap.
Qed.

Lemma sorted_perm (l : list string) : Permutation (Py.sorted l) l.
Proof.
  induction l as [|x l IH]; simpl; [reflexivity|].
  rewrite insert_perm. now constructor.
Qed.

Lemma insert_ascending (x : string) (l : list string) :
  ascending l -> ascending (Py.insert x l).
Proof.
  unfold ascending.
  induction l as [|y l IH]; simpl; intros Hl.
  - repeat constructor.
  - inversion Hl as [|? ? Hl' Hy]; subst.
    destruct (String.leb x y) eqn:E.
    + constructor; [assumption|].
      constructor; [assumption|].
      eapply Forall_impl; [|exact Hy].
      intros z Hz. now apply (string_leb_trans x y z).
    + constructor; [now apply IH|].
      apply (Permutation_Forall (Permutation_sym (insert_perm x l))).
      constructor; [now apply string_leb_false|assumption].
Qed.

Lemma sorted_ascending (l : list string) : ascending (Py.sorted l).
Proof.
  induction l as [|x l IH]; simpl.
  - constructor.
  - now apply insert_ascending.
Qed.

Lemma insert_insert (x y : string) (l : list string) :
  Py.insert x (Py.insert y l) = Py.insert y (Py.insert x l).
Proof.
  induction l as [|z l IH]; simpl.
  - destruct (String.leb x y) eqn:Exy, (String.leb y x) eqn:Eyx;
      try reflexivity.
    + now rewrite (String.leb_antisym x y Exy Eyx).
    + apply string_leb_false in Exy. congruence.
  - destruct (String.leb y z) eqn:Eyz, (String.leb x z) eqn:Exz; simpl;
      rewrite ?Eyz, ?Exz.
    + destruct (String.leb x y) eqn:Exy, (String.leb y x) eqn:Eyx;
        try reflexivity.
      * now rewrite (String.leb_antisym x y Exy Eyx).
      * apply string_leb_false in Exy. congruence.
    + destruct (String.leb x y) eqn:Exy; [|reflexivity].
      rewrite (string_leb_trans x y z Exy Eyz) in Exz. discriminate.
    + destruct (String.leb y x) eqn:Eyx; [|reflexivity].
      rewrite (string_leb_trans y x z Eyx Exz) in Eyz. discriminate.
    + now rewrite IH.
Qed.

Lemma sorted_permutation_invariant (l l' : list string) :
  Permutation l l' -> Py.sorted l = Py.sorted l'.
Proof.
  induction 1 as [|x l l' _ IH|x y l|l l' l'' _ IH1 _ IH2]; simpl.
  - reflexivity.
  - now rewrite IH.
  - apply insert_insert.
  - congruence.
Qed.

Lemma truthy_list_permutation {A : Type} (l l' : list A) :
  Permutation l l' -> Py.truthy_list l = Py.truthy_list l'.
Proof.
  intros P. destruct l, l'; try reflexivity.
  - now apply Permutation_nil in P.
  - apply Permutation_sym in P. now apply Permutation_nil in P.
Qed.

End PyFacts.

(** ** helpers.py and config_flow.py: identity derivation *)

Section UniqueId.
Context `{Directions}.

(** C8.  For every stop id, list of filter lines and direction, the unique
    id is the stop id, followed (when the list is not empty) by an
    underscore and the filter lines sorted ascending and joined by hyphens,
    followed (exactly when the direction is not [DIRECTION_ALL]) by an
    underscore and the direction.  The sorted lines are an ascending
    permutation of the filter lines, and the id is the same for every
    permutation of the filter lines. *)
Theorem generate_unique_id_spec
    (stop_id : string) (filter_lines : list string) (direction : string) :
  helpers.generate_unique_id stop_id filter_lines direction
    = stop_id
        ++ match filter_lines with
           | [] => ""
           | _ :: _ => "_" ++ Py.join "-" (Py.sorted filter_lines)
           end
        ++ (if String.eqb direction DIRECTION_ALL then ""
            else "_" ++ direction)
  /\ ascending (Py.sorted filter_lines)
  /\ Permutation (Py.sorted filter_lines) filter_lines
  /\ forall filter_lines',
       Permutation filter_lines filter_lines' ->
       helpers.generate_unique_id stop_id filter_lines' direction
         = helpers.generate_unique_id stop_id filter_lines direction.
Proof.
  repeat split.
  - unfold helpers.generate_unique_id, Py.join.
    destruct filter_lines as [|l ls];
      destruct (String.eqb direction DIRECTION_ALL); cbn [Py.truthy_list negb];
      cbn [app String.concat]; rewrite ?append_empty_r; reflexivity.
  - apply sorted_ascending.
  - apply sorted_perm.
  - intros filter_lines' P. unfold helpers.generate_unique_id.
    now rewrite (truthy_list_permutation _ _ P),
      (sorted_permutation_invariant _ _ P).
Qed.

(** The two-argument [generate_unique_id] of [config_flow.py] is the
    three-argument one of [helpers.py] at the default direction. *)
Lemma config_flow_generate_unique_id
    (stop_id : string) (filter_lines : list string) :
  config_flow.generate_unique_id stop_id filter_lines
    = helpers.generate_unique_id stop_id filter_lines DIRECTION_ALL.
Proof.
  unfold config_flow.generate_unique_id, helpers.generate_unique_id, Py.join.
  rewrite String.eqb_refl.
  destruct filter_lines as [|l ls]; cbn [Py.truthy_list negb]; reflexivity.
Qed.

End UniqueId.

(** The id of stop "123" filtered on lines 39 and 21 in direction "here",
    whichever way round the lines are given. *)
Lemma generate_unique_id_witness :
  Permutation ["39"; "21"] ["21"; "39"]
  /\ @helpers.generate_unique_id example.directions "123" ["21"; "39"] "here"
     = @helpers.generate_unique_id example.directions "123" ["39"; "21"] "here"
  /\ @helpers.generate_unique_id example.directions "123" ["39"; "21"] "here"
     = "123_21-39_here".
Proof.
  split; [apply perm_swap|]. split.
  - apply (proj2 (proj2 (proj2
      (@generate_unique_id_spec example.directions "123" ["39"; "21"]
         "here")))).
    apply perm_swap.
  - reflexivity.
Defined.

(** ** sensor.py: the departure filter *)

Section Filter.
Context `{Directions}.

Lemma str_in_In (x : string) (l : list string) :
  Py.str_in x l = true <-> In x l.
Proof.
  unfold Py.str_in. rewrite existsb_exists. split.
  - intros [y [Hy E]]. apply String.eqb_eq in E. now subst.
  - intros Hx. exists x. split; [assumption|apply String.eqb_refl].
Qed.

Lemma opt_str_eqb_Some (v : option string) (s : string) :
  Py.opt_str_eqb v s = true <-> v = Some s.
Proof.
  destruct v as [x|]; simpl.
  - rewrite String.eqb_eq. split; congruence.
  - split; discriminate.
Qed.

Lemma truthy_str_Some (v : option string) :
  Py.truthy_str v = true <-> exists s, v = Some s /\ s <> "".
Proof.
  destruct v as [x|]; simpl.
  - destruct (String.eqb_spec x ""); simpl; split.
    + discriminate.
    + intros [s [E N]]. congruence.
    + intros _. now exists x.
    + reflexivity.
  - split; [discriminate|]. intros [s [E _]]. discriminate.
Qed.

(** The line test of the filter alone. *)
Lemma line_filter_passes (filter_lines : list string) (line : option string) :
  Py.truthy_list filter_lines
    && (negb (Py.truthy_str line)
        || negb (Py.str_in (Py.get line "") filter_lines)) = false
  <-> filter_lines = []
      \/ exists l, line = Some l /\ l <> "" /\ In l filter_lines.
Proof.
  destruct filter_lines as [|f fs]; simpl Py.truthy_list.
  - split; [now left|reflexivity].
  - rewrite andb_true_l, orb_false_iff, !negb_false_iff.
    rewrite truthy_str_Some, str_in_In. split.
    + intros [[s [E N]] I]. subst line. right. now exists s.
    + intros [E|[l [E [N I]]]]; [discriminate|]. subst line.
      split; [now exists l|exact I].
Qed.

(** The direction test of the filter alone. *)
Lemma direction_filter_passes (direction : string) (tag : option string) :
  (if negb (direction =? DIRECTION_ALL)%string then
     if (direction =? DIRECTION_HERE)%string && negb (Py.opt_str_eqb tag "here")
     then false
     else if negb (direction =? DIRECTION_HERE)%string
             && Py.opt_str_eqb tag "here"
     then false
     else true
   else true) = true
  <-> direction = DIRECTION_ALL
      \/ (direction = DIRECTION_HERE /\ tag = Some "here")
      \/ (direction <> DIRECTION_HERE /\ direction <> DIRECTION_ALL
          /\ tag <> Some "here").
Proof.
  destruct (String.eqb_spec direction DIRECTION_ALL) as [A|A]; simpl.
  - split; [now left|reflexivity].
  - destruct (String.eqb_spec direction DIRECTION_HERE) as [E|E]; simpl;
      destruct (Py.opt_str_eqb tag "here") eqn:T; simpl.
    + apply opt_str_eqb_Some in T. split; [|reflexivity].
      intros _. right. left. now split.
    + split; [discriminate|].
      intros [D|[[_ D]|[D _]]]; try contradiction.
      apply opt_str_eqb_Some in D. congruence.
    + apply opt_str_eqb_Some in T. split; [discriminate|].
      intros [D|[[D _]|[_ [_ D]]]]; contradiction.
    + split; [|reflexivity]. intros _. right. right.
      repeat split; try assumption.
      intros D. apply opt_str_eqb_Some in D. congruence.
Qed.

(** C2, as amended.  A departure is included iff both hold: (1) the filter
    lines are empty, or the departure's line is present, is not the empty
    string, and is a member of the filter lines; and (2) the direction is
    [DIRECTION_ALL], or it is [DIRECTION_HERE] and the direction tag is
    "here", or it is neither and the direction tag is not "here" (a missing
    tag is not "here"). *)
Theorem should_include_departure_iff (self : Sensor) (departure : Departure) :
  sensor._should_include_departure self departure = true
  <-> (_filter_lines self = []
       \/ exists l, sensor.get_line departure = Some l /\ l <> ""
                    /\ In l (_filter_lines self))
      /\ (_direction self = DIRECTION_ALL
          \/ (_direction self = DIRECTION_HERE
              /\ sensor.get_direction departure = Some "here")
          \/ (_direction self <> DIRECTION_HERE
              /\ _direction self <> DIRECTION_ALL
              /\ sensor.get_direction departure <> Some "here")).
Proof.
  rewrite <- line_filter_passes, <- direction_filter_passes.
  unfold sensor._should_include_departure. cbv zeta.
  destruct (Py.truthy_list (_filter_lines self)
            && (negb (Py.truthy_str (sensor.get_line departure))
                || negb (Py.str_in (Py.get (sensor.get_line departure) "")
                           (_filter_lines self)))).
  - split; [discriminate|]. intros [F _]. discriminate.
  - split; [now split|]. now intros [_ D].
Qed.

End Filter.

(** C2 as stated fails for a departure whose line is the empty string when
    the filter lines contain the empty string: the line is present and a
    member, the direction is "all", and the departure is excluded. *)
Lemma should_include_departure_empty_line :
  let self := example.sensor_all 10 [""] in
  let departure :=
    example.departure (Some "") (Some "Centrum") (Some 1300) None None in
  ~ (@sensor._should_include_departure example.directions self departure
       = true
     <-> (_filter_lines self = []
          \/ exists l, sensor.get_line departure = Some l
                       /\ In l (_filter_lines self))
         /\ (_direction self = @DIRECTION_ALL example.directions
             \/ (_direction self = @DIRECTION_HERE example.directions
                 /\ sensor.get_direction departure = Some "here")
             \/ (_direction self <> @DIRECTION_HERE example.directions
                 /\ _direction self <> @DIRECTION_ALL example.directions
                 /\ sensor.get_direction departure <> Some "here"))).
Proof.
  intros self departure [_ Claim].
  assert (Included :
    @sensor._should_include_departure example.directions self departure
      = true).
  { apply Claim. split.
    - right. exists "". split; [reflexivity|now left].
    - now left. }
  vm_compute in Included. discriminate.
Qed.

(** ** sensor.py: the attribute list *)

Section Details.
Context `{Directions} `{Host}.

(** The loop appends to the accumulator one entry per departure, in order. *)
Lemma details_loop (l : list Departure) :
  forall (acc : list DepartureAttributes) (k : nat),
  exists (entries : list DepartureAttributes) (k' : nat),
    sensor.for_each l
      (fun departure acc =>
         sensor.bind (sensor.departure_attributes departure)
           (fun entry => sensor.ret (acc ++ [entry])%list))
      acc k
    = ((acc ++ entries)%list, k')
    /\ Forall2 (fun entry departure => entry_of departure entry) entries l.
Proof.
  induction l as [|departure l IH]; intros acc k; simpl.
  - exists [], k. rewrite app_nil_r. split; [reflexivity|constructor].
  - unfold sensor.bind at 1.
    destruct (sensor.bind (sensor.departure_attributes departure)
                (fun entry => sensor.ret (acc ++ [entry])%list) k)
      as [acc1 k1] eqn:Step.
    unfold sensor.bind, sensor.ret in Step.
    destruct (sensor.departure_attributes departure k) as [entry k0] eqn:E.
    injection Step as <- <-.
    destruct (IH (acc ++ [entry])%list k0) as [entries [k' [Run All]]].
    exists (entry :: entries), k'. split.
    + rewrite Run. now rewrite <- app_assoc.
    + constructor; [|exact All].
      exists k. now rewrite E.
Qed.

(** With a published snapshot, [extra_state_attributes] returns the bag
    whose [departures] are the entries of the sliced filtered list. *)
Lemma extra_state_attributes_published
    (self : Sensor) (c : Coordinator) (d : Snapshot) (k : nat) :
  data c = Some d ->
  exists (attrs : Attributes) (k' : nat),
    sensor.extra_state_attributes self c k = (inr attrs, k')
    /\ Forall2 (fun entry departure => entry_of departure entry)
         (at_departures attrs)
         (Py.slice_to
            (filter (sensor._should_include_departure self) (d_departures d))
            (_max_departures self))
    /\ at_last_update attrs = d_last_update d
    /\ at_max_departures attrs = _max_departures self
    /\ at_filter_lines attrs = _filter_lines self
    /\ at_direction attrs = direction c.
Proof.
  intros D. unfold sensor.extra_state_attributes. rewrite D.
  destruct (details_loop
    (Py.slice_to
       (filter (sensor._should_include_departure self) (d_departures d))
       (_max_departures self)) [] k) as [entries [k' [Run All]]].
  unfold sensor.bind at 1. rewrite Run. simpl.
  eexists _, k'. split; [reflexivity|]. simpl. now repeat split.
Qed.


End Details.


(** ** sensor.py: the timing fields of an entry *)

Section Timing.
Context `{Directions} `{Host}.

Lemma Forall2_In_left {A B : Type} (R : A -> B -> Prop)
    (l1 : list A) (l2 : list B) (a : A) :
  Forall2 R l1 l2 -> In a l1 -> exists b, In b l2 /\ R a b.
Proof.
  induction 1 as [|x y l1 l2 Rxy _ IH]; simpl; [contradiction|].
  intros [->|I].
  - exists y. now split; [left|].
  - destruct (IH I) as [b [Ib Rb]]. exists b. now split; [right|].
Qed.

(** The fields of an entry that do not involve the clock. *)
Lemma entry_of_plain_fields
    (departure : Departure) (entry : DepartureAttributes) :
  entry_of departure entry ->
  attr_line entry = Py.get (sensor.get_line departure) "Unknown"
  /\ attr_destination entry
     = Py.get (sensor.get_destination departure) "Unknown"
  /\ attr_platform entry = platformNumber departure
  /\ attr_direction entry = sensor.get_direction departure
  /\ attr_planed_departure entry = plannedDepartureTimestamp departure
  /\ attr_delay entry = Py.get (delayMinutes departure) 0.
Proof.
  intros [k ->]. unfold sensor.departure_attributes.
  destruct (Py.truthy_int (plannedDepartureTimestamp departure));
    repeat split; reflexivity.
Qed.

(** The timing fields of an entry, from its own [planed_departure] and
    [delay]: either the planned timestamp is absent or zero and every
    derived field is [None], or it is some [p <> 0] and the derived fields
    come from [p + delay * 60] and one reading of the clock. *)
Lemma entry_of_timing (departure : Departure) (entry : DepartureAttributes) :
  entry_of departure entry ->
  ((attr_planed_departure entry = None \/ attr_planed_departure entry = Some 0)
   /\ attr_planed_departure_formatted entry = None
   /\ attr_departute_calculated entry = None
   /\ attr_calculated_departure_formatted entry = None
   /\ attr_seconds_until_departure entry = None
   /\ attr_minutes_until_departure entry = None)
  \/ exists (p : Z) (k : nat),
       let calculated := p + attr_delay entry * 60 in
       let seconds := calculated - utcnow_timestamp k in
       attr_planed_departure entry = Some p /\ p <> 0
       /\ attr_planed_departure_formatted entry = Some (as_local_HM p)
       /\ attr_departute_calculated entry = Some calculated
       /\ attr_calculated_departure_formatted entry
          = (if calculated =? 0 then None else Some (as_local_HM calculated))
       /\ attr_seconds_until_departure entry
          = (if calculated =? 0 then None else Some seconds)
       /\ attr_minutes_until_departure entry
          = (if (calculated =? 0) || (seconds =? 0) then None
             else Some (Z.quot seconds 60)).
Proof.
  intros [k ->]. unfold sensor.departure_attributes.
  destruct (plannedDepartureTimestamp departure) as [p|] eqn:P;
    [destruct (Z.eqb_spec p 0) as [->|Nz]|].
  - left. simpl. repeat split. now right.
  - right. exists p, k.
    apply Z.eqb_neq in Nz.
    cbv beta iota zeta delta
      [sensor.bind sensor.ret sensor._calculate_time_until_departure
       sensor.utcnow sensor._calculate_departure_time Py.truthy_int fst snd
       attr_planed_departure attr_delay attr_planed_departure_formatted
       attr_departute_calculated attr_calculated_departure_formatted
       attr_seconds_until_departure attr_minutes_until_departure].
    rewrite Nz. cbv beta iota zeta delta [negb fst snd]. cbn [Py.get].
    apply Z.eqb_neq in Nz.
    repeat split; try assumption;
      destruct (p + Py.get (delayMinutes departure) 0 * 60 =? 0);
      cbn [negb andb orb]; try reflexivity.
    unfold Py.int_truediv.
    destruct (p + Py.get (delayMinutes departure) 0 * 60
              - utcnow_timestamp k =? 0); reflexivity.
  - left. simpl. repeat split. now left.
Qed.


End Timing.



(** ** sensor.py: the headline *)

Section Headline.
Context `{Directions} `{Host}.

(** [native_value] on a published snapshot with a first filtered departure. *)
Lemma native_value_first
    (self : Sensor) (c : Coordinator) (d : Snapshot) (k : nat)
    (first : Departure) (rest : list Departure) :
  data c = Some d ->
  filter (sensor._should_include_departure self) (d_departures d)
    = first :: rest ->
  let line := Py.get (sensor.get_line first) "Unknown" in
  let destination := Py.get (sensor.get_destination first) "Unknown" in
  let seconds :=
    Py.get (plannedDepartureTimestamp first) 0
      + Py.get (delayMinutes first) 0 * 60 - utcnow_timestamp k in
  sensor.native_value self c k
  = if Py.truthy_int (plannedDepartureTimestamp first)
    then (Some (line ++ " -> " ++ destination ++ " in "
                  ++ Py.str_int (if seconds <=? 0 then 0
                                 else Z.quot seconds 60)
                  ++ " min"),
          S k)
    else (Some (line ++ " -> " ++ destination), k).
Proof.
  intros D F. unfold sensor.native_value. rewrite D, F.
  destruct (Py.truthy_int (plannedDepartureTimestamp first)); reflexivity.
Qed.


End Headline.



(** ** sensor.py: departures that have already left *)

Section Elapsed.
Context `{Directions} `{Host}.

Lemma quot_negative (s : Z) :
  s < 0 -> Z.quot s 60 = - ((- s) / 60) /\ Z.quot s 60 <= 0.
Proof.
  intros Neg.
  assert (Q : Z.quot s 60 = - Z.quot (- s) 60).
  { rewrite Z.quot_opp_l by lia. now rewrite Z.opp_involutive. }
  rewrite (Z.quot_div_nonneg (- s) 60) in Q by lia.
  split; [exact Q|].
  rewrite Q. pose proof (Z.div_pos (- s) 60). lia.
Qed.


End Elapsed.



(** ** sensor.py: departures with missing fields *)

Section MissingFields.
Context `{Directions} `{Host}.

(** A departure without [timeTableTrip], or whose trip has no
    [timeTableLine], has no line; without the trip it has no destination and
    no direction tag either. *)
Lemma missing_trip (departure : Departure) :
  (timeTableTrip departure = None ->
   sensor.get_line departure = None
   /\ sensor.get_destination departure = None
   /\ sensor.get_direction departure = None)
  /\ (forall trip,
        timeTableTrip departure = Some trip -> timeTableLine trip = None ->
        sensor.get_line departure = None).
Proof.
  unfold sensor.get_line, sensor.get_destination, sensor.get_direction.
  split.
  - intros ->. now repeat split.
  - intros trip -> L. simpl. now rewrite L.
Qed.

(** On typed records: on every published snapshot the two projections
    return without raising.  For a departure that misses the trip, the line or the
    destination, the entry and the headline render the missing line and
    destination as "Unknown"; a missing platform and a missing direction tag
    stay unset ([None]) in the entry; and a departure without a line is
    excluded by every non-empty list of filter lines. *)
Theorem projections_total_with_missing_fields
    (self : Sensor) (c : Coordinator) (d : Snapshot) (k : nat) :
  data c = Some d ->
  let filtered :=
    filter (sensor._should_include_departure self) (d_departures d) in
  (exists (attrs : Attributes) (k' : nat),
     sensor.extra_state_attributes self c k = (inr attrs, k')
     /\ Forall2
          (fun entry departure =>
             (sensor.get_line departure = None -> attr_line entry = "Unknown")
             /\ (sensor.get_destination departure = None ->
                 attr_destination entry = "Unknown")
             /\ (platformNumber departure = None -> attr_platform entry = None)
             /\ (sensor.get_direction departure = None ->
                 attr_direction entry = None)
             /\ (timeTableTrip departure = None ->
                 attr_line entry = "Unknown"
                 /\ attr_destination entry = "Unknown"
                 /\ attr_direction entry = None))
          (at_departures attrs)
          (Py.slice_to filtered (_max_departures self)))
  /\ (exists (headline : option string) (k' : nat),
        sensor.native_value self c k = (headline, k')
        /\ forall first rest, filtered = first :: rest ->
             (exists timing,
                headline
                = Some (Py.get (sensor.get_line first) "Unknown" ++ " -> "
                          ++ Py.get (sensor.get_destination first) "Unknown"
                          ++ timing))
             /\ (timeTableTrip first = None ->
                 exists timing,
                   headline = Some ("Unknown -> Unknown" ++ timing)))
  /\ forall departure,
       sensor.get_line departure = None ->
       _filter_lines self <> [] ->
       sensor._should_include_departure self departure = false.
Proof.
  intros D filtered. split; [|split].
  - destruct (extra_state_attributes_published self c d k D)
      as [attrs [k' [Run [All _]]]].
    exists attrs, k'. split; [exact Run|].
    fold filtered in All.
    eapply Forall2_impl; [|exact All].
    intros entry departure E. cbv beta in E.
    destruct (entry_of_plain_fields departure entry E)
      as [L [T [P [R _]]]].
    rewrite L, T, P, R.
    split; [|split; [|split; [|split]]]; try (intros ->; reflexivity).
    intros Trip.
    destruct (proj1 (missing_trip departure) Trip) as [NL [NT NR]].
    now rewrite NL, NT, NR.
  - destruct (sensor.native_value self c k) as [headline k'] eqn:Run.
    exists headline, k'. split; [reflexivity|].
    intros first rest F.
    rewrite (native_value_first self c d k first rest D F) in Run.
    assert (General : exists timing,
      headline
      = Some (Py.get (sensor.get_line first) "Unknown" ++ " -> "
                ++ Py.get (sensor.get_destination first) "Unknown"
                ++ timing)).
    { destruct (Py.truthy_int (plannedDepartureTimestamp first));
        injection Run as <- _.
      - eexists. reflexivity.
      - exists "". now rewrite append_empty_r. }
    split; [exact General|].
    intros Trip. destruct (proj1 (missing_trip first) Trip) as [NL [NT _]].
    rewrite NL, NT in General. exact General.
  - intros departure L Filter.
    unfold sensor._should_include_departure. cbv zeta. rewrite L.
    destruct (_filter_lines self); [contradiction|reflexivity].
Qed.

End MissingFields.

(** An upstream record that is the empty JSON object: its entry reads
    "Unknown" twice, its headline is "Unknown -> Unknown", and a filter on
    line 21 excludes it. *)
Lemma projections_total_with_missing_fields_witness :
  let empty :=
    {| timeTableTrip := None; plannedDepartureTimestamp := None;
       delayMinutes := None; platformNumber := None |} in
  let c := example.published [empty] in
  (exists (attrs : Attributes) (k' : nat),
     @sensor.extra_state_attributes example.directions (example.host 1000)
       (example.sensor_all 10 []) c 0%nat
     = (inr attrs, k')
     /\ map attr_line (at_departures attrs) = ["Unknown"]
     /\ map attr_destination (at_departures attrs) = ["Unknown"])
  /\ fst (@sensor.native_value example.directions (example.host 1000)
            (example.sensor_all 10 []) c 0%nat)
     = Some "Unknown -> Unknown"
  /\ @sensor._should_include_departure example.directions
       (example.sensor_all 10 ["21"]) empty
     = false.
Proof.
  intros empty c.
  destruct (@projections_total_with_missing_fields example.directions
              (example.host 1000) (example.sensor_all 10 []) c _ 0%nat eq_refl)
    as [[attrs [k' [Run _]]] _].
  destruct (@projections_total_with_missing_fields example.directions
              (example.host 1000) (example.sensor_all 10 ["21"]) c _ 0%nat
              eq_refl)
    as [_ [_ Excluded]].
  split; [|split].
  - exists attrs, k'. split; [exact Run|].
    vm_compute in Run. injection Run as <- _. split; reflexivity.
  - reflexivity.
  - apply Excluded; [reflexivity|discriminate].
Defined.

(** ** coordinator.py: the request of the departures endpoint *)

Section Request.

Lemma append_assoc (s t u : string) : (s ++ t) ++ u = s ++ (t ++ u).
Proof. induction s as [|a s IH]; simpl; [reflexivity|now rewrite IH]. Qed.

Lemma replace_app (c : ascii) (by_ s t : string) :
  Py.replace c by_ (s ++ t) = Py.replace c by_ s ++ Py.replace c by_ t.
Proof.
  induction s as [|a s IH]; simpl; [reflexivity|].
  destruct (Ascii.eqb a c); rewrite IH; [now rewrite append_assoc|reflexivity].
Qed.

(** A digit is neither a colon nor a plus sign. *)
Lemma digit_plain (n : Z) :
  Ascii.eqb (Py.digit n) ":" = false /\ Ascii.eqb (Py.digit n) "+" = false.
Proof.
  unfold Py.digit.
  assert (R : (Z.to_nat (n mod 10) < 10)%nat).
  { pose proof (Z.mod_pos_bound n 10). lia. }
  generalize dependent (Z.to_nat (n mod 10)). intros r R.
  do 10 (destruct r as [|r]; [split; reflexivity|]).
  lia.
Qed.

Lemma replace_pad2 (by_ : string) (n : Z) :
  Py.replace ":" by_ (Py.pad2 n) = Py.pad2 n
  /\ Py.replace "+" by_ (Py.pad2 n) = Py.pad2 n.
Proof.
  unfold Py.pad2. cbn [Py.replace].
  destruct (digit_plain n) as [-> ->], (digit_plain (n / 10)) as [-> ->].
  now split.
Qed.

Lemma replace_pad4 (by_ : string) (n : Z) :
  Py.replace ":" by_ (Py.pad4 n) = Py.pad4 n.
Proof.
  unfold Py.pad4. cbn [Py.replace].
  destruct (digit_plain (n / 1000)) as [-> _],
    (digit_plain (n / 100)) as [-> _].
  now rewrite (proj1 (replace_pad2 by_ n)).
Qed.

(** [replace] across a padded number followed by more text. *)
Lemma replace_pad2_app (by_ : string) (n : Z) (t : string) :
  Py.replace ":" by_ (Py.pad2 n ++ t) = Py.pad2 n ++ Py.replace ":" by_ t
  /\ Py.replace "+" by_ (Py.pad2 n ++ t) = Py.pad2 n ++ Py.replace "+" by_ t.
Proof.
  rewrite !(replace_app _ _ (Py.pad2 n)).
  now rewrite (proj1 (replace_pad2 by_ n)), (proj2 (replace_pad2 by_ n)).
Qed.

Lemma replace_pad4_app (by_ : string) (n : Z) (t : string) :
  Py.replace ":" by_ (Py.pad4 n ++ t) = Py.pad4 n ++ Py.replace ":" by_ t.
Proof.
  now rewrite (replace_app _ _ (Py.pad4 n)), replace_pad4.
Qed.

Ltac replace_literals :=
  cbn [append Py.replace Ascii.eqb Bool.eqb].

(** C7, as amended.  For every local datetime the [date] field of the
    request is the date, a plus sign, the hour, the percent-encoded colon
    [%3A] and the minute, followed by the UTC offset without colon, whose
    leading plus sign is encoded as [%2B] and whose leading minus sign is
    kept; the seconds of the offset follow when they are not zero.  The
    field is sent as the [date] item of the form body. *)
Theorem formatted_date_spec (now : datetime) :
  let offset := Z.abs (utcoffset now) in
  coordinator.formatted_date now
  = Py.pad4 (year now) ++ "-" ++ Py.pad2 (month now) ++ "-"
      ++ Py.pad2 (day now) ++ "+" ++ Py.pad2 (hour now) ++ "%3A"
      ++ Py.pad2 (minute now)
      ++ (if utcoffset now <? 0 then "-" else "%2B")
      ++ Py.pad2 (offset / 3600) ++ Py.pad2 (offset mod 3600 / 60)
      ++ (if offset mod 60 =? 0 then "" else Py.pad2 (offset mod 60))
  /\ forall id,
       coordinator.url_encoded_data id now
       = "stopID=" ++ id ++ "&date=" ++ coordinator.formatted_date now
           ++ "&filter=urban&cityID=-1".
Proof.
  intros offset. split.
  - unfold coordinator.formatted_date, strftime.Ymd_plus_HM, strftime.z.
    fold offset.
    rewrite replace_pad4_app. replace_literals.
    rewrite (proj1 (replace_pad2_app _ _ _)). replace_literals.
    rewrite (proj1 (replace_pad2_app _ _ _)). replace_literals.
    rewrite (proj1 (replace_pad2_app _ _ _)). replace_literals.
    rewrite (proj1 (replace_pad2 _ _)).
    rewrite (append_assoc (Py.pad4 _)). f_equal. cbn [append]. f_equal.
    rewrite (append_assoc (Py.pad2 _)). f_equal. cbn [append]. f_equal.
    rewrite (append_assoc (Py.pad2 _)). f_equal. cbn [append]. f_equal.
    rewrite (append_assoc (Py.pad2 _)). f_equal. cbn [append]. do 4 f_equal.
    destruct (utcoffset now <? 0); replace_literals;
      rewrite (proj1 (replace_pad2_app _ _ _)),
        (proj2 (replace_pad2_app _ _ _)),
        (proj1 (replace_pad2_app _ _ _)),
        (proj2 (replace_pad2_app _ _ _));
      (destruct (offset mod 60 =? 0);
       [reflexivity
       |now rewrite (proj1 (replace_pad2 _ _)), (proj2 (replace_pad2 _ _))]).
  - intros id. unfold coordinator.url_encoded_data, Py.join.
    cbn [map String.concat]. unfold DEFAULT_FILTER, DEFAULT_CITY_ID.
    reflexivity.
Qed.

End Request.

(** On 12 October 2026 at 14:30 in a zone two hours east of UTC the field
    is "2026-10-12+14%3A30%2B0200". *)
Example formatted_date_noon :
  coordinator.formatted_date example.noon = "2026-10-12+14%3A30%2B0200".
Proof. reflexivity. Qed.

(** C7 as stated fails at that instant: the field is not
    "2026-10-12%2014:30%2B0200". *)
Lemma formatted_date_not_percent20 :
  coordinator.formatted_date example.noon <> "2026-10-12%2014:30%2B0200".
Proof. vm_compute. discriminate. Qed.

(** ** coordinator.py: stop metadata *)

Section StopInfo.

(** [_fetch_stop_info] touches nothing but [stop_name] and
    [stopping_lines]. *)
Lemma fetch_stop_info_frame (w : World) (self : Coordinator) :
  let self' := snd (coordinator._fetch_stop_info w self) in
  stop_id self' = stop_id self
  /\ last_update self' = last_update self
  /\ direction self' = direction self
  /\ data self' = data self
  /\ last_update_success self' = last_update_success self.
Proof.
  unfold coordinator._fetch_stop_info, coordinator.except_ClientError,
    coordinator.bind, coordinator.read, coordinator.await, coordinator.ret.
  destruct (session_get w _) as [[]|response]; simpl; try now repeat split.
  destruct (negb (status response =? 200)); simpl; try now repeat split.
  destruct (negb (Py.opt_str_eqb (j_status (json response)) "ok")
            || negb (Py.truthy_list (Py.get (j_stops (json response)) [])));
    simpl; try now repeat split.
  destruct (Py.get (j_stops (json response)) []); simpl; now repeat split.
Qed.

(** On typed records: when the session answers or raises a network error
    ([aiohttp.ClientError]), [_fetch_stop_info] returns without raising and
    changes nothing but the stop metadata.  It sets the metadata, from the
    first stop entry, exactly when the response has HTTP status 200, the
    envelope status "ok" and a non-empty stop list; the stop identifier of
    that entry is not compared with the requested one.  In every other case
    the coordinator is left as it was. *)
Theorem fetch_stop_info_spec (w : World) (self : Coordinator) :
  (forall e,
     session_get w (coordinator.stop_info_url (stop_id self)) = inl e ->
     exists msg, e = ClientError msg) ->
  exists self',
    coordinator._fetch_stop_info w self = (inr tt, self')
    /\ stop_id self' = stop_id self
    /\ last_update self' = last_update self
    /\ data self' = data self
    /\ ((exists response first rest,
           session_get w (coordinator.stop_info_url (stop_id self))
             = inr response
           /\ status response = 200
           /\ j_status (json response) = Some "ok"
           /\ j_stops (json response) = Some (first :: rest)
           /\ stop_name self' = stopName first
           /\ stopping_lines self' = Py.get (ezLines first) [])
        \/ (~ (exists response first rest,
                 session_get w (coordinator.stop_info_url (stop_id self))
             = inr response
                 /\ status response = 200
                 /\ j_status (json response) = Some "ok"
                 /\ j_stops (json response) = Some (first :: rest))
            /\ self' = self)).
Proof.
  intros Net.
  destruct (fetch_stop_info_frame w self) as [Id [Upd [_ [Dat _]]]].
  destruct (coordinator._fetch_stop_info w self) as [r self'] eqn:Run.
  cbv zeta in *. simpl snd in *.
  unfold coordinator._fetch_stop_info, coordinator.except_ClientError,
    coordinator.bind, coordinator.read, coordinator.await, coordinator.ret
    in Run.
  destruct (session_get w (coordinator.stop_info_url (stop_id self)))
    as [e|response] eqn:Get.
  - destruct (Net e eq_refl) as [msg ->]. injection Run as <- <-.
    exists self. repeat split. right. split; [|reflexivity].
    intros [response [first [rest [G _]]]]. discriminate.
  - destruct (Z.eqb_spec (status response) 200) as [S200|S200];
      cbn [negb] in Run.
    + destruct (Py.opt_str_eqb (j_status (json response)) "ok") eqn:Ok;
        cbn [negb orb] in Run.
      * apply opt_str_eqb_Some in Ok.
        destruct (j_stops (json response)) as [[|first rest]|] eqn:Stops;
          cbn [Py.get Py.truthy_list negb] in Run.
        -- injection Run as <- <-. exists self. repeat split. right.
           split; [|reflexivity].
           intros [r [f [l [G [_ [_ St]]]]]].
           injection G as <-. congruence.
        -- unfold coordinator.set_stop_name, coordinator.set_stopping_lines
             in Run. cbn in Run. injection Run as <- <-.
           eexists. split; [reflexivity|]. repeat split. left.
           exists response, first, rest. now repeat split.
        -- injection Run as <- <-. exists self. repeat split. right.
           split; [|reflexivity].
           intros [r [f [l [G [_ [_ St]]]]]].
           injection G as <-. congruence.
      * injection Run as <- <-. exists self. repeat split. right.
        split; [|reflexivity].
        intros [r [f [l [G [_ [O _]]]]]]. injection G as <-.
        apply opt_str_eqb_Some in O. congruence.
    + injection Run as <- <-. exists self. repeat split. right.
      split; [|reflexivity].
      intros [r [f [l [G [S _]]]]]. injection G as <-. contradiction.
Qed.

End StopInfo.

(** A network error while fetching the stop info: the coordinator stays as
    it was and nothing is raised. *)
Lemma fetch_stop_info_spec_witness :
  exists self',
    coordinator._fetch_stop_info
      (example.world (inl (ClientError "timeout"))
         (inr example.no_departures_field))
      example.fresh
    = (inr tt, self')
    /\ self' = example.fresh.
Proof.
  destruct (fetch_stop_info_spec
              (example.world (inl (ClientError "timeout"))
                 (inr example.no_departures_field))
              example.fresh)
    as [self' [Run [_ [_ [_ [[r [f [l [G _]]]]|[_ Same]]]]]]].
  - intros e E. injection E as <-. now exists "timeout".
  - discriminate.
  - exists self'. now split.
Defined.

(** C6 as stated fails when the stop endpoint answers about another stop:
    the coordinator for stop "123" takes the name and lines of stop 999,
    whose identifier does not match the requested one. *)
Lemma fetch_stop_info_ignores_stop_id :
  let w := example.world (inr example.other_stop)
             (inr example.no_departures_field) in
  let self' := snd (coordinator._fetch_stop_info w example.fresh) in
  ~ (stop_name self' <> stop_name example.fresh ->
     exists first rest,
       j_stops (json example.other_stop) = Some (first :: rest)
       /\ Py.str_int (Py.get (stopID first) 0) = stop_id example.fresh).
Proof.
  intros w self' Claim.
  destruct Claim as [first [rest [Stops Match]]].
  - vm_compute. discriminate.
  - injection Stops as <- _. vm_compute in Match. discriminate.
Qed.

(** Setup-time validation does compare the identifiers: on the same answer
    [validate_stop_id] rejects stop "123". *)
Example validate_stop_id_compares :
  config_flow.validate_stop_id
    (example.world (inr example.other_stop) (inr example.no_departures_field))
    "123"
  = inl InvalidStopId.
Proof. reflexivity. Qed.

(** ** coordinator.py: a response without the departures field *)

Section Refresh.

(** [_fetch_departures] mutates [last_update] only. *)
Lemma fetch_departures_frame (w : World) (self : Coordinator) :
  let self' := snd (coordinator._fetch_departures w self) in
  stop_id self' = stop_id self
  /\ stop_name self' = stop_name self
  /\ stopping_lines self' = stopping_lines self
  /\ data self' = data self.
Proof.
  unfold coordinator._fetch_departures, coordinator.bind, coordinator.read,
    coordinator.await, coordinator.raise, coordinator.ret,
    coordinator.set_last_update.
  destruct (session_post w _ _) as [e|response]; simpl; try now repeat split.
  destruct (negb (status response =? 200)); simpl; try now repeat split.
  destruct (j_departures (json response)); simpl; now repeat split.
Qed.

(** [_async_update_data] never touches the published snapshot. *)
Lemma async_update_data_frame (w : World) (self : Coordinator) :
  data (snd (coordinator._async_update_data w self)) = data self.
Proof.
  unfold coordinator._async_update_data, coordinator.except_ClientError.
  unfold coordinator.bind at 1. unfold coordinator.read at 1.
  assert (Stop : exists r1 self1,
    (match stop_name self with
     | None => coordinator._fetch_stop_info w
     | Some _ => coordinator.ret tt
     end) self = (r1, self1) /\ data self1 = data self).
  { destruct (stop_name self).
    - now exists (inr tt), self.
    - destruct (fetch_stop_info_frame w self) as [_ [_ [_ [D _]]]].
      destruct (coordinator._fetch_stop_info w self) as [r1 self1].
      now exists r1, self1. }
  destruct Stop as [r1 [self1 [Run1 D1]]].
  unfold coordinator.bind at 1. rewrite Run1.
  destruct r1 as [e|[]].
  - destruct e; simpl; exact D1.
  - destruct (fetch_departures_frame w self1) as [_ [_ [_ D2]]].
    unfold coordinator.bind at 1.
    destruct (coordinator._fetch_departures w self1) as [[e|ds] self2];
      simpl in D2.
    + destruct e; simpl; congruence.
    + simpl. congruence.
Qed.

(** A response with status 200 and no [departures] key makes
    [_fetch_departures] evaluate the set display [{[]}]. *)
Lemma fetch_departures_missing_field
    (w : World) (self : Coordinator) (response : Response DeparturesJson) :
  session_post w DEPARTURES_API_ENDPOINT
    (coordinator.url_encoded_data (stop_id self) (now_request w))
    = inr response ->
  status response = 200 ->
  j_departures (json response) = None ->
  coordinator._fetch_departures w self
  = (inl (TypeError "unhashable type: 'list'"), self).
Proof.
  intros Post Ok Missing.
  unfold coordinator._fetch_departures, coordinator.bind, coordinator.read,
    coordinator.await.
  rewrite Post, Ok, Missing. reflexivity.
Qed.

(** C1, what the code does.  When the departures endpoint answers with
    status 200 and a JSON object without the [departures] key,
    [_fetch_departures] raises the built-in [TypeError] (from the set
    display [{[]}]), not an error of the integration; it returns no list.
    Once the stop name is known the same [TypeError] leaves
    [_async_update_data], which converts network errors only.  After any
    failed [_async_update_data] the refresh cycle keeps the published
    snapshot and records the failure. *)
Theorem missing_departures_field_raises_TypeError
    (w : World) (self : Coordinator) (response : Response DeparturesJson) :
  session_post w DEPARTURES_API_ENDPOINT
    (coordinator.url_encoded_data (stop_id self) (now_request w))
    = inr response ->
  status response = 200 ->
  j_departures (json response) = None ->
  coordinator._fetch_departures w self
    = (inl (TypeError "unhashable type: 'list'"), self)
  /\ (stop_name self <> None ->
      coordinator._async_update_data w self
        = (inl (TypeError "unhashable type: 'list'"), self)
      /\ data (coordinator.async_refresh w self) = data self
      /\ last_update_success (coordinator.async_refresh w self) = false)
  /\ forall (w' : World) e self',
       coordinator._async_update_data w' self = (inl e, self') ->
       data (coordinator.async_refresh w' self) = data self
       /\ last_update_success (coordinator.async_refresh w' self) = false.
Proof.
  intros Post Ok Missing.
  pose proof (fetch_departures_missing_field w self response Post Ok Missing)
    as Raise.
  assert (Retained : forall (w' : World) e self',
    coordinator._async_update_data w' self = (inl e, self') ->
    data (coordinator.async_refresh w' self) = data self
    /\ last_update_success (coordinator.async_refresh w' self) = false).
  { intros w' e self' Run.
    pose proof (async_update_data_frame w' self) as D.
    unfold coordinator.async_refresh. rewrite Run in *. simpl in *.
    now split. }
  split; [exact Raise|]. split; [|exact Retained].
  intros Named.
  assert (Run : coordinator._async_update_data w self
                = (inl (TypeError "unhashable type: 'list'"), self)).
  { unfold coordinator._async_update_data, coordinator.except_ClientError.
    unfold coordinator.bind at 1. unfold coordinator.read at 1.
    destruct (stop_name self) as [name|]; [|contradiction].
    unfold coordinator.bind at 1. unfold coordinator.ret at 1.
    unfold coordinator.bind at 1. rewrite Raise. reflexivity. }
  split; [exact Run|]. exact (Retained w _ _ Run).
Qed.

End Refresh.

(** The failing input: a coordinator that has published a board receives
    status 200 with the JSON object [{}]. *)
Lemma missing_departures_field_raises_TypeError_witness :
  let w := example.world (inr example.other_stop)
             (inr example.no_departures_field) in
  let self := example.published [] in
  coordinator._fetch_departures w self
    = (inl (TypeError "unhashable type: 'list'"), self)
  /\ coordinator._async_update_data w self
     = (inl (TypeError "unhashable type: 'list'"), self)
  /\ data (coordinator.async_refresh w self) = data self.
Proof.
  intros w self.
  destruct (missing_departures_field_raises_TypeError w self
              example.no_departures_field eq_refl eq_refl eq_refl)
    as [Raise [Named _]].
  destruct Named as [Run [Kept _]]; [discriminate|].
  now repeat split.
Defined.

(** * Further properties *)

(** ** Facts about [strip] and [split] *)

Section StripFacts.

Lemma string_strong_ind (P : string -> Prop) :
  (forall s,
     (forall t, (String.length t < String.length s)%nat -> P t) -> P s) ->
  forall s, P s.
Proof.
  intros Step s.
  assert (All : forall n t, (String.length t < n)%nat -> P t).
  { induction n as [|n IH]; intros t Lt; [lia|].
    apply Step. intros u Lu. apply IH. lia. }
  apply (All (S (String.length s))). lia.
Qed.

Lemma lstrip_suffix (s : string) : exists p, s = p ++ Py.lstrip s.
Proof.
  induction s as [s IH] using string_strong_ind.
  destruct s as [|a s1]; cbn [Py.lstrip]; [now exists ""|].
  destruct (Py.isspace1 a).
  { destruct (IH s1) as [p E]; [simpl; lia|].
    exists (String a p). simpl. now rewrite <- E. }
  destruct s1 as [|b s2]; [now exists ""|].
  destruct (Py.isspace2 a b).
  { destruct (IH s2) as [p E]; [simpl; lia|].
    exists (String a (String b p)). simpl. now rewrite <- E. }
  destruct s2 as [|c s3]; [now exists ""|].
  destruct (Py.isspace3 a b c); [|now exists ""].
  destruct (IH s3) as [p E]; [simpl; lia|].
  exists (String a (String b (String c p))). simpl. now rewrite <- E.
Qed.

Lemma lstrip_clean (s : string) : starts_with_space (Py.lstrip s) = false.
Proof.
  induction s as [s IH] using string_strong_ind.
  destruct s as [|a s1]; cbn [Py.lstrip]; [reflexivity|].
  destruct (Py.isspace1 a) eqn:A; [apply IH; simpl; lia|].
  destruct s1 as [|b s2]; [simpl; now rewrite A|].
  destruct (Py.isspace2 a b) eqn:B; [apply IH; simpl; lia|].
  destruct s2 as [|c s3]; [simpl; now rewrite A, B|].
  destruct (Py.isspace3 a b c) eqn:C; [apply IH; simpl; lia|].
  simpl. now rewrite A, B, C.
Qed.

Lemma lstrip_fixed (s : string) :
  starts_with_space s = false -> Py.lstrip s = s.
Proof.
  destruct s as [|a [|b [|c s3]]]; simpl; intros Clean.
  - reflexivity.
  - rewrite orb_false_r in Clean. now rewrite Clean.
  - apply orb_false_elim in Clean. destruct Clean as [A B].
    rewrite orb_false_r in B. now rewrite A, B.
  - apply orb_false_elim in Clean. destruct Clean as [A B].
    apply orb_false_elim in B. destruct B as [B C]. now rewrite A, B, C.
Qed.

Lemma starts_with_space_app (r q : string) :
  starts_with_space r = true -> starts_with_space (r ++ q) = true.
Proof.
  destruct r as [|a [|b [|c r3]]]; simpl; try discriminate.
  - rewrite orb_false_r. now intros ->.
  - rewrite orb_false_r. intros S.
    apply orb_true_iff in S. destruct S as [-> | ->]; [reflexivity|].
    destruct q; now rewrite ?orb_true_r.
  - trivial.
Qed.


Lemma lstrip_rev_suffix (s : string) : exists p, s = p ++ Py.lstrip_rev s.
Proof.
  induction s as [s IH] using string_strong_ind.
  destruct s as [|c s1]; cbn [Py.lstrip_rev]; [now exists ""|].
  destruct (Py.isspace1 c).
  { destruct (IH s1) as [p E]; [simpl; lia|].
    exists (String c p). simpl. now rewrite <- E. }
  destruct s1 as [|b s2]; [now exists ""|].
  destruct (Py.isspace2 b c).
  { destruct (IH s2) as [p E]; [simpl; lia|].
    exists (String c (String b p)). simpl. now rewrite <- E. }
  destruct s2 as [|a s3]; [now exists ""|].
  destruct (Py.isspace3 a b c); [|now exists ""].
  destruct (IH s3) as [p E]; [simpl; lia|].
  exists (String c (String b (String a p))). simpl. now rewrite <- E.
Qed.

Lemma lstrip_rev_clean (s : string) :
  starts_with_space_rev (Py.lstrip_rev s) = false.
Proof.
  induction s as [s IH] using string_strong_ind.
  destruct s as [|c s1]; cbn [Py.lstrip_rev]; [reflexivity|].
  destruct (Py.isspace1 c) eqn:C; [apply IH; simpl; lia|].
  destruct s1 as [|b s2]; [simpl; now rewrite C|].
  destruct (Py.isspace2 b c) eqn:B; [apply IH; simpl; lia|].
  destruct s2 as [|a s3]; [simpl; now rewrite C, B|].
  destruct (Py.isspace3 a b c) eqn:A; [apply IH; simpl; lia|].
  simpl. now rewrite C, B, A.
Qed.

Lemma lstrip_rev_fixed (s : string) :
  starts_with_space_rev s = false -> Py.lstrip_rev s = s.
Proof.
  destruct s as [|c [|b [|a s3]]]; simpl; intros Clean.
  - reflexivity.
  - rewrite orb_false_r in Clean. now rewrite Clean.
  - apply orb_false_elim in Clean. destruct Clean as [C B].
    rewrite orb_false_r in B. now rewrite C, B.
  - apply orb_false_elim in Clean. destruct Clean as [C B].
    apply orb_false_elim in B. destruct B as [B A]. now rewrite C, B, A.
Qed.

Lemma str_rev_app (s t : string) :
  Py.str_rev (s ++ t) = Py.str_rev t ++ Py.str_rev s.
Proof.
  induction s as [|a s IH]; simpl.
  - now rewrite append_empty_r.
  - now rewrite IH, append_assoc.
Qed.

Lemma str_rev_involutive (s : string) : Py.str_rev (Py.str_rev s) = s.
Proof.
  induction s as [|a s IH]; simpl; [reflexivity|].
  now rewrite str_rev_app, IH.
Qed.

Lemma rstrip_prefix (s : string) : exists q, s = Py.rstrip s ++ q.
Proof.
  unfold Py.rstrip.
  destruct (lstrip_rev_suffix (Py.str_rev s)) as [p E].
  exists (Py.str_rev p).
  rewrite <- str_rev_app, <- E. now rewrite str_rev_involutive.
Qed.

Lemma rstrip_clean (s : string) : ends_with_space (Py.rstrip s) = false.
Proof.
  unfold ends_with_space, Py.rstrip. rewrite str_rev_involutive.
  apply lstrip_rev_clean.
Qed.

Lemma rstrip_fixed (s : string) :
  ends_with_space s = false -> Py.rstrip s = s.
Proof.
  unfold ends_with_space, Py.rstrip. intros Clean.
  rewrite (lstrip_rev_fixed _ Clean). apply str_rev_involutive.
Qed.

Lemma strip_clean (s : string) :
  starts_with_space (Py.strip s) = false
  /\ ends_with_space (Py.strip s) = false.
Proof.
  unfold Py.strip. split; [|apply rstrip_clean].
  destruct (rstrip_prefix (Py.lstrip s)) as [q E].
  destruct (starts_with_space (Py.rstrip (Py.lstrip s))) eqn:S;
    [|reflexivity].
  apply (starts_with_space_app _ q) in S. rewrite <- E in S.
  now rewrite lstrip_clean in S.
Qed.

Lemma strip_fixed (s : string) :
  starts_with_space s = false -> ends_with_space s = false ->
  Py.strip s = s.
Proof.
  intros L R. unfold Py.strip. rewrite (lstrip_fixed s L).
  now apply rstrip_fixed.
Qed.

Lemma strip_substring (s : string) :
  exists p q, s = p ++ Py.strip s ++ q.
Proof.
  unfold Py.strip.
  destruct (lstrip_suffix s) as [p E].
  destruct (rstrip_prefix (Py.lstrip s)) as [q F].
  exists p, q. now rewrite <- F.
Qed.

Lemma forallb_str_app (p : ascii -> bool) (s t : string) :
  forallb_str p (s ++ t) = forallb_str p s && forallb_str p t.
Proof.
  induction s as [|a s IH]; simpl; [reflexivity|].
  now rewrite IH, andb_assoc.
Qed.

Lemma split_on_pieces_free (f : ascii -> bool) (s x : string) :
  In x (Py.split_on f s) -> forallb_str (fun a => negb (f a)) x = true.
Proof.
  revert x. induction s as [|a s IH]; simpl; intros x I.
  - destruct I as [<-|[]]. reflexivity.
  - destruct (f a) eqn:F.
    + destruct I as [<-|I]; [reflexivity|now apply IH].
    + destruct (Py.split_on f s) as [|piece pieces].
      * destruct I as [<-|[]]. simpl. now rewrite F.
      * destruct I as [<-|I].
        -- simpl. rewrite F. simpl. apply IH. now left.
        -- apply IH. now right.
Qed.

Lemma split_on_free (f : ascii -> bool) (x : string) :
  forallb_str (fun a => negb (f a)) x = true -> Py.split_on f x = [x].
Proof.
  induction x as [|a x IH]; simpl; [reflexivity|].
  intros Free. apply andb_true_iff in Free. destruct Free as [A Free].
  apply negb_true_iff in A. now rewrite A, (IH Free).
Qed.

Lemma split_on_app_sep (f : ascii -> bool) (x : string) (c : ascii)
    (rest : string) :
  forallb_str (fun a => negb (f a)) x = true -> f c = true ->
  Py.split_on f (x ++ String c rest) = x :: Py.split_on f rest.
Proof.
  intros Free Sep. induction x as [|a x IH]; simpl.
  - now rewrite Sep.
  - simpl in Free. apply andb_true_iff in Free. destruct Free as [A Free].
    apply negb_true_iff in A. now rewrite A, (IH Free).
Qed.

End StripFacts.

(** ** config_flow.py: the filter lines typed by the user *)

Section ParseFilterLines.

(** What [parse_filter_lines] returns are the stripped pieces that are not
    empty. *)
Lemma parse_filter_lines_elements (text e : string) :
  In e (config_flow.parse_filter_lines text) ->
  e <> ""
  /\ exists piece,
       In piece (Py.split_on config_flow.comma_or_semicolon text)
       /\ e = Py.strip piece.
Proof.
  unfold config_flow.parse_filter_lines.
  destruct (String.eqb_spec text "") as [->|_]; [contradiction|].
  rewrite in_map_iff.
  intros [piece [<- I]]. apply filter_In in I. destruct I as [I Keep].
  split.
  - apply negb_true_iff, String.eqb_neq in Keep. exact Keep.
  - now exists piece.
Qed.

(** A stripped piece that is not empty is a canonical line. *)
Lemma stripped_piece_canonical (text piece : string) :
  In piece (Py.split_on config_flow.comma_or_semicolon text) ->
  Py.strip piece <> "" ->
  canonical_line (Py.strip piece).
Proof.
  intros P Ne. destruct (strip_clean piece) as [L R].
  repeat split; try assumption.
  pose proof
    (split_on_pieces_free config_flow.comma_or_semicolon text piece P)
    as Free.
  destruct (strip_substring piece) as [p [q E]].
  rewrite E in Free. rewrite !forallb_str_app in Free.
  apply andb_true_iff in Free. destruct Free as [_ Free].
  apply andb_true_iff in Free. now destruct Free as [Free _].
Qed.

(** X1.  Every element of [parse_filter_lines text] is a canonical line:
    it is not empty, has no whitespace at either end (stripping it again
    changes nothing) and contains neither a comma nor a semicolon. *)
Theorem parse_filter_lines_canonical (text e : string) :
  In e (config_flow.parse_filter_lines text) ->
  canonical_line e /\ Py.strip e = e.
Proof.
  intros I.
  destruct (parse_filter_lines_elements text e I) as [Ne [piece [P E]]].
  subst e.
  pose proof (stripped_piece_canonical text piece P Ne) as C.
  split; [exact C|].
  destruct C as [_ [L [R _]]]. now apply strip_fixed.
Qed.

(** Splitting the comma-joined (or semicolon-joined) canonical lines gives
    the lines back. *)
Lemma split_on_join (c : ascii) (x : string) (l : list string) :
  config_flow.comma_or_semicolon c = true ->
  Forall canonical_line (x :: l) ->
  Py.split_on config_flow.comma_or_semicolon (Py.join (String c "") (x :: l))
  = x :: l.
Proof.
  intros Sep. revert x.
  induction l as [|y l IH]; intros x All; inversion All as [|? ? Cx All'];
    subst.
  - simpl. apply split_on_free. now destruct Cx as [_ [_ [_ Free]]].
  - unfold Py.join in *.
    change (String.concat (String c "") (x :: y :: l))
      with (x ++ String c (String.concat (String c "") (y :: l))).
    rewrite split_on_app_sep; [|now destruct Cx as [_ [_ [_ Free]]]|exact Sep].
    now rewrite (IH y All').
Qed.

(** Parsing the joined canonical lines. *)
Lemma parse_filter_lines_of_join (c : ascii) (l : list string) :
  config_flow.comma_or_semicolon c = true ->
  Forall canonical_line l ->
  config_flow.parse_filter_lines (Py.join (String c "") l) = l.
Proof.
  intros S All.
  destruct l as [|x l]; [reflexivity|].
  unfold config_flow.parse_filter_lines.
  assert (Ne : Py.join (String c "") (x :: l) <> "").
  { inversion All as [|? ? [Nx _] _]; subst.
    unfold Py.join. destruct l; simpl; [assumption|].
    destruct x; [contradiction|discriminate]. }
  apply String.eqb_neq in Ne. rewrite Ne.
  rewrite (split_on_join c x l S All).
  assert (Fixed : forall e, In e (x :: l) -> Py.strip e = e /\ e <> "").
  { intros e I. rewrite Forall_forall in All.
    destruct (All e I) as [N [L [R _]]]. split; [now apply strip_fixed|].
    exact N. }
  clear All Ne. induction (x :: l) as [|e es IH]; [reflexivity|].
  cbn [filter]. destruct (Fixed e (or_introl eq_refl)) as [Fe Ne].
  rewrite Fe. apply String.eqb_neq in Ne. rewrite Ne. cbn [negb map].
  rewrite Fe. f_equal. apply IH. intros e' I. apply Fixed. now right.
Qed.

(** X2.  Round trip: a list of canonical lines joined with commas, or with
    semicolons, is parsed back to the same list, in the same order; so the
    lines parsed from any text, joined and parsed again, are the same
    lines. *)
Theorem parse_filter_lines_join (c : ascii) (l : list string) :
  c = ","%char \/ c = ";"%char ->
  (Forall canonical_line l ->
   config_flow.parse_filter_lines (Py.join (String c "") l) = l)
  /\ forall text,
       config_flow.parse_filter_lines
         (Py.join (String c "") (config_flow.parse_filter_lines text))
       = config_flow.parse_filter_lines text.
Proof.
  intros Sep.
  assert (S : config_flow.comma_or_semicolon c = true)
    by (destruct Sep as [-> | ->]; reflexivity).
  split; [now apply parse_filter_lines_of_join|].
  intros text. apply parse_filter_lines_of_join; [exact S|].
  apply Forall_forall. intros e I.
  destruct (parse_filter_lines_elements text e I) as [Ne [piece [P E]]].
  subst e. now apply (stripped_piece_canonical text).
Qed.

End ParseFilterLines.

(** The lines 21, 39 and N29 joined with commas are parsed back. *)
Lemma parse_filter_lines_join_witness :
  Forall canonical_line ["21"; "39"; "N29"]
  /\ config_flow.parse_filter_lines (Py.join "," ["21"; "39"; "N29"])
     = ["21"; "39"; "N29"].
Proof.
  assert (All : Forall canonical_line ["21"; "39"; "N29"]).
  { repeat constructor; discriminate. }
  split; [exact All|].
  now apply (proj1 (parse_filter_lines_join ","%char _ (or_introl eq_refl))).
Defined.

(** The text " 21, 39;;N29 ," gives three canonical lines. *)
Lemma parse_filter_lines_canonical_witness :
  In "39" (config_flow.parse_filter_lines " 21, 39;;N29 ,")
  /\ canonical_line "39".
Proof.
  assert (I : In "39" (config_flow.parse_filter_lines " 21, 39;;N29 ,")).
  { vm_compute. right. now left. }
  split; [exact I|].
  exact (proj1 (parse_filter_lines_canonical _ _ I)).
Defined.

(** X3.  With the filter lines that [parse_filter_lines] returns, a
    departure is included iff its line is present and a member of the
    filter lines (or there are none) and the direction test passes: the
    empty line never matches because the parsed lines are never empty. *)
Theorem should_include_with_parsed_lines `{Directions}
    (text : string) (self : Sensor) (departure : Departure) :
  _filter_lines self = config_flow.parse_filter_lines text ->
  sensor._should_include_departure self departure = true
  <-> (_filter_lines self = []
       \/ exists l, sensor.get_line departure = Some l
                    /\ In l (_filter_lines self))
      /\ (_direction self = DIRECTION_ALL
          \/ (_direction self = DIRECTION_HERE
              /\ sensor.get_direction departure = Some "here")
          \/ (_direction self <> DIRECTION_HERE
              /\ _direction self <> DIRECTION_ALL
              /\ sensor.get_direction departure <> Some "here")).
Proof.
  intros Parsed.
  assert (Lines :
    (_filter_lines self = []
     \/ exists l, sensor.get_line departure = Some l
                  /\ In l (_filter_lines self))
    <-> (_filter_lines self = []
         \/ exists l, sensor.get_line departure = Some l /\ l <> ""
                      /\ In l (_filter_lines self))).
  { split; (intros [E|[l [L I]]]; [now left|right; exists l]).
    - split; [exact L|]. split; [|exact I].
      rewrite Parsed in I.
      now destruct (parse_filter_lines_elements text l I).
    - now destruct I as [_ I]. }
  rewrite Lines, <- line_filter_passes, <- direction_filter_passes.
  unfold sensor._should_include_departure. cbv zeta.
  destruct (Py.truthy_list (_filter_lines self)
            && (negb (Py.truthy_str (sensor.get_line departure))
                || negb (Py.str_in (Py.get (sensor.get_line departure) "")
                           (_filter_lines self)))).
  - split; [discriminate|]. intros [F _]. discriminate.
  - split; [now split|]. now intros [_ D].
Qed.

(** A sensor filtering on the lines typed as "21, 39" includes line 39. *)
Lemma should_include_with_parsed_lines_witness :
  @sensor._should_include_departure example.directions
    (example.sensor_all 10 ["21"; "39"])
    (example.departure (Some "39") (Some "Centrum") None None None)
  = true.
Proof.
  apply (@should_include_with_parsed_lines example.directions "21, 39");
    [reflexivity|].
  split.
  - right. exists "39". split; [reflexivity|]. right. now left.
  - now left.
Defined.

(** ** config_flow.py: validation of the stop id and the user step *)

Section Validation.

(** [validate_stop_id] with its tests in one place. *)
Lemma validate_stop_id_cases (w : World) (id : string) :
  config_flow.validate_stop_id w id
  = match session_get w (STOP_INFO_API_ENDPOINT ++ "?ids=" ++ id) with
    | inl (ClientError _) => inl CannotConnect
    | inl e => inl e
    | inr response =>
        if (status response =? 200)%Z then
          match j_stops (json response) with
          | Some (first :: _) =>
              match stopID first with
              | Some n =>
                  if (n =? 0)%Z then inl InvalidStopId
                  else if (Py.str_int n =? id)%string then inr tt
                  else inl InvalidStopId
              | None => inl InvalidStopId
              end
          | _ => inl InvalidStopId
          end
        else inl CannotConnect
    end.
Proof.
  unfold config_flow.validate_stop_id.
  destruct (session_get w _) as [e|response]; [reflexivity|].
  destruct (status response =? 200)%Z; cbn [negb]; [|reflexivity].
  destruct (j_stops (json response)) as [[|first rest]|]; try reflexivity.
  destruct (stopID first) as [n|], (stopName first), (ezLines first);
    cbn [Py.truthy_int Py.get negb]; try reflexivity;
    destruct (n =? 0)%Z; cbn [negb]; try reflexivity;
    destruct (Py.str_int n =? id)%string; reflexivity.
Qed.


(** X5.  A stop id accepted by [validate_stop_id] and the metadata that
    [_fetch_stop_info] stores for it, on the same answer of the stop
    endpoint: the first stop entry carries the requested id; when the
    envelope status is "ok" the coordinator takes the name and lines of
    that entry, and when it is not (validation does not look at it) the
    coordinator is left without metadata change.  Nothing is raised. *)
Theorem validated_stop_metadata (w : World) (self : Coordinator) :
  config_flow.validate_stop_id w (stop_id self) = inr tt ->
  exists response first rest n,
    session_get w (coordinator.stop_info_url (stop_id self)) = inr response
    /\ j_stops (json response) = Some (first :: rest)
    /\ stopID first = Some n
    /\ Py.str_int n = stop_id self
    /\ fst (coordinator._fetch_stop_info w self) = inr tt
    /\ (j_status (json response) = Some "ok" ->
        stop_name (snd (coordinator._fetch_stop_info w self))
          = stopName first
        /\ stopping_lines (snd (coordinator._fetch_stop_info w self))
           = Py.get (ezLines first) [])
    /\ (j_status (json response) <> Some "ok" ->
        snd (coordinator._fetch_stop_info w self) = self).
Proof.
  rewrite validate_stop_id_cases.
  unfold coordinator._fetch_stop_info, coordinator.except_ClientError,
    coordinator.bind, coordinator.read, coordinator.await, coordinator.ret,
    coordinator.stop_info_url.
  destruct (session_get w _) as [e|response]; [destruct e; discriminate|].
  destruct (status response =? 200)%Z; [|discriminate]. cbn [negb].
  destruct (j_stops (json response)) as [[|first rest]|] eqn:Stops;
    try discriminate.
  destruct (stopID first) as [n|] eqn:Id; [|discriminate].
  destruct (n =? 0)%Z; [discriminate|].
  destruct (String.eqb_spec (Py.str_int n) (stop_id self)) as [P|P];
    [|discriminate].
  intros _. exists response, first, rest, n.
  cbn [Py.get Py.truthy_list negb]. rewrite orb_false_r.
  destruct (Py.opt_str_eqb (j_status (json response)) "ok") eqn:Ok;
    cbn [negb];
    (split; [reflexivity|]); (split; [exact Stops|]);
    (split; [exact Id|]); (split; [exact P|]);
    (split; [reflexivity|]); split.
  - intros _. now split.
  - intros NotOk. apply opt_str_eqb_Some in Ok. contradiction.
  - intros IsOk. apply opt_str_eqb_Some in IsOk. congruence.
  - intros _. reflexivity.
Qed.

(** X6.  The user step with form data: when validation fails the form is
    shown again with the error of the failure ("cannot_connect",
    "invalid_stop_id", and "unknown" for anything else); when validation
    passes and the unique id of stop and parsed lines is already
    configured the flow aborts; otherwise an entry is created whose title
    is "Bus Stop", the stop id and, when there are lines, the parsed lines
    in the order typed, and whose data keep the stop id and
    [max_departures] of the form. *)
Theorem async_step_user_outcome
    (w : World) (configured : string -> bool) (input : config_flow.UserInput) :
  let id := config_flow.ui_stop_id input in
  let lines :=
    config_flow.parse_filter_lines
      (Py.get (config_flow.ui_filter_lines input) "") in
  let unique_id := config_flow.generate_unique_id id lines in
  let outcome := config_flow.async_step_user w configured (Some input) in
  (forall e,
     config_flow.validate_stop_id w id = inl e ->
     outcome
     = config_flow.show_form
         (Some match e with
               | CannotConnect => "cannot_connect"
               | InvalidStopId => "invalid_stop_id"
               | _ => "unknown"
               end))
  /\ (config_flow.validate_stop_id w id = inr tt ->
      configured unique_id = true ->
      outcome = config_flow.abort_flow)
  /\ (config_flow.validate_stop_id w id = inr tt ->
      configured unique_id = false ->
      exists data,
        outcome
        = config_flow.create_entry
            ("Bus Stop " ++ id
               ++ match lines with
                  | [] => ""
                  | _ :: _ => " (Lines: " ++ Py.join ", " lines ++ ")"
                  end)
            data
        /\ config_flow.ed_stop_id data = id
        /\ config_flow.ed_max_departures data
           = config_flow.ui_max_departures input
        /\ (lines <> [] -> config_flow.ed_filter_lines data = Some (inr lines)))
  /\ ((exists title data, outcome = config_flow.create_entry title data) ->
      config_flow.validate_stop_id w id = inr tt
      /\ configured unique_id = false).
Proof.
  intros id lines unique_id outcome.
  assert (Lines :
    (if Py.truthy_str (config_flow.ui_filter_lines input)
     then config_flow.parse_filter_lines
            (Py.get (config_flow.ui_filter_lines input) "")
     else []) = lines).
  { unfold lines. destruct (config_flow.ui_filter_lines input) as [t|];
      [|reflexivity].
    simpl. destruct (String.eqb_spec t "") as [->|_]; reflexivity. }
  unfold outcome, config_flow.async_step_user. cbv zeta.
  rewrite Lines. fold id. fold unique_id. clearbody lines.
  destruct (config_flow.validate_stop_id w id) as [e|[]].
  - split; [|split; [|split]]; try discriminate.
    + intros e' E. injection E as <-. now destruct e.
    + intros [title [data E]]. destruct e; discriminate.
  - split; [|split; [|split]].
    + discriminate.
    + intros _ ->. reflexivity.
    + intros _ ->.
      exists {| config_flow.ed_stop_id := id;
                config_flow.ed_max_departures :=
                  config_flow.ui_max_departures input;
                config_flow.ed_filter_lines :=
                  if Py.truthy_str (config_flow.ui_filter_lines input)
                  then Some (inr lines)
                  else option_map inl (config_flow.ui_filter_lines input) |}.
      split.
      { destruct lines; cbn [Py.truthy_list];
          [now rewrite append_empty_r|]. rewrite append_assoc. reflexivity. }
      split; [reflexivity|split].
      * reflexivity.
      * intros Ne. cbn [config_flow.ed_filter_lines].
        destruct (Py.truthy_str (config_flow.ui_filter_lines input));
          [reflexivity|congruence].
    + intros [title [data E]]. split; [reflexivity|].
      destruct (configured unique_id); [discriminate|reflexivity].
Qed.

(** X7.  The unique id of the user step ignores the order in which the
    lines are typed: once a stop is configured with some lines, form data
    for the same stop whose parsed lines are a permutation of them abort
    the flow, whatever [max_departures] they carry. *)
Theorem async_step_user_rejects_reordered_lines
    (w : World) (configured : string -> bool)
    (first again : config_flow.UserInput) :
  let lines (input : config_flow.UserInput) :=
    config_flow.parse_filter_lines
      (Py.get (config_flow.ui_filter_lines input) "") in
  config_flow.ui_stop_id again = config_flow.ui_stop_id first ->
  Permutation (lines first) (lines again) ->
  config_flow.validate_stop_id w (config_flow.ui_stop_id again) = inr tt ->
  configured
    (config_flow.generate_unique_id (config_flow.ui_stop_id first)
       (lines first)) = true ->
  config_flow.async_step_user w configured (Some again)
  = config_flow.abort_flow.
Proof.
  intros lines Same Perm Valid Known.
  assert (Lines :
    (if Py.truthy_str (config_flow.ui_filter_lines again)
     then config_flow.parse_filter_lines
            (Py.get (config_flow.ui_filter_lines again) "")
     else []) = lines again).
  { unfold lines. destruct (config_flow.ui_filter_lines again) as [t|];
      [|reflexivity].
    simpl. destruct (String.eqb_spec t "") as [->|_]; reflexivity. }
  unfold config_flow.async_step_user. rewrite Valid. cbv zeta.
  rewrite Lines, Same.
  assert (Id :
    config_flow.generate_unique_id (config_flow.ui_stop_id first)
      (lines again)
    = config_flow.generate_unique_id (config_flow.ui_stop_id first)
        (lines first)).
  { unfold config_flow.generate_unique_id.
    now rewrite <- (truthy_list_permutation _ _ Perm),
      <- (sorted_permutation_invariant _ _ Perm). }
  now rewrite Id, Known.
Qed.

End Validation.

(** Stop 123 is validated and the coordinator takes its name. *)
Lemma validated_stop_metadata_witness :
  let w := example.world (inr example.this_stop)
             (inr example.no_departures_field) in
  config_flow.validate_stop_id w (stop_id example.fresh) = inr tt
  /\ stop_name (snd (coordinator._fetch_stop_info w example.fresh))
     = Some "Hlavna stanica".
Proof.
  intros w.
  assert (Valid : config_flow.validate_stop_id w (stop_id example.fresh)
                  = inr tt) by reflexivity.
  split; [exact Valid|].
  destruct (validated_stop_metadata w example.fresh Valid)
    as [response [first [rest [n [G [S [_ [_ [_ [Ok _]]]]]]]]]].
  injection G as <-. injection S as <- _.
  exact (proj1 (Ok eq_refl)).
Defined.

(** Stop 123 with the lines typed as "39, 21" and nothing configured: an
    entry titled "Bus Stop 123 (Lines: 39, 21)" is created. *)
Lemma async_step_user_outcome_witness :
  exists data,
    config_flow.async_step_user
      (example.world (inr example.this_stop)
         (inr example.no_departures_field))
      (fun _ => false)
      (Some {| config_flow.ui_stop_id := "123";
               config_flow.ui_max_departures := 5;
               config_flow.ui_filter_lines := Some "39, 21" |})
    = config_flow.create_entry "Bus Stop 123 (Lines: 39, 21)" data.
Proof.
  destruct (async_step_user_outcome
              (example.world (inr example.this_stop)
                 (inr example.no_departures_field))
              (fun _ => false)
              {| config_flow.ui_stop_id := "123";
                 config_flow.ui_max_departures := 5;
                 config_flow.ui_filter_lines := Some "39, 21" |})
    as [_ [_ [Create _]]].
  destruct (Create eq_refl eq_refl) as [data [E _]].
  exists data. exact E.
Defined.

(** Stop 123 configured with "21, 39" and typed again as "39;21" with
    another [max_departures]: the flow aborts. *)
Lemma async_step_user_rejects_reordered_lines_witness :
  config_flow.async_step_user
    (example.world (inr example.this_stop) (inr example.no_departures_field))
    (fun unique_id => (unique_id =? "123_21-39")%string)
    (Some {| config_flow.ui_stop_id := "123";
             config_flow.ui_max_departures := 3;
             config_flow.ui_filter_lines := Some "39;21" |})
  = config_flow.abort_flow.
Proof.
  apply (async_step_user_rejects_reordered_lines _ _
           {| config_flow.ui_stop_id := "123";
              config_flow.ui_max_departures := 10;
              config_flow.ui_filter_lines := Some "21, 39" |});
    try reflexivity.
  apply perm_swap.
Defined.

(** ** coordinator.py: the refresh cycle *)

Section Cycle.

(** [_fetch_stop_info] never raises a [ClientError]: it handles it. *)
Lemma fetch_stop_info_no_ClientError (w : World) (self : Coordinator) :
  forall msg,
    fst (coordinator._fetch_stop_info w self) <> inl (ClientError msg).
Proof.
  intros msg.
  unfold coordinator._fetch_stop_info, coordinator.except_ClientError.
  destruct (coordinator.bind _ _ self) as [[e|[]] self'];
    [destruct e|]; discriminate.
Qed.

(** [_fetch_departures], outcome by outcome: it returns a list only for a
    response with status 200 that has the [departures] field, and then it
    returns that field as it is and stamps [last_update]; every failure
    leaves the coordinator as it was. *)
Lemma fetch_departures_cases (w : World) (self : Coordinator) :
  coordinator._fetch_departures w self
  = match
      session_post w DEPARTURES_API_ENDPOINT
        (coordinator.url_encoded_data (stop_id self) (now_request w))
    with
    | inl e => (inl e, self)
    | inr response =>
        if (status response =? 200)%Z then
          match j_departures (json response) with
          | None => (inl (TypeError "unhashable type: 'list'"), self)
          | Some departures =>
              (inr departures,
               snd (coordinator.set_last_update
                      (strftime.dmY_HMS (now_stamp w)) self))
          end
        else
          (inl (UpdateFailed
                  ("Invalid response from API: "
                     ++ Py.str_int (status response))), self)
    end.
Proof.
  unfold coordinator._fetch_departures, coordinator.bind, coordinator.read,
    coordinator.await, coordinator.raise, coordinator.ret.
  destruct (session_post w _ _) as [e|response]; [reflexivity|].
  destruct (status response =? 200)%Z; cbn [negb]; [|reflexivity].
  destruct (j_departures (json response)); reflexivity.
Qed.

(** [_async_update_data] in two steps: the stop info when the name is not
    known, then the departures. *)
Lemma async_update_data_cases (w : World) (self : Coordinator) :
  coordinator._async_update_data w self
  = let first_step :=
      match stop_name self with
      | None => coordinator._fetch_stop_info w self
      | Some _ => (inr tt, self)
      end in
    match first_step with
    | (inl e, self1) => (inl (coordinator.converted e), self1)
    | (inr _, self1) =>
        match coordinator._fetch_departures w self1 with
        | (inl e, self2) => (inl (coordinator.converted e), self2)
        | (inr departures, self2) =>
            (inr {| d_departures := departures;
                    d_stop_name := stop_name self2;
                    d_stopping_lines := stopping_lines self2;
                    d_last_update := last_update self2 |}, self2)
        end
    end.
Proof.
  unfold coordinator._async_update_data, coordinator.except_ClientError,
    coordinator.bind, coordinator.read, coordinator.ret, coordinator.raise.
  cbv zeta.
  destruct (stop_name self).
  - destruct (coordinator._fetch_departures w self) as [[e|ds] self2];
      [destruct e|]; reflexivity.
  - destruct (coordinator._fetch_stop_info w self) as [[e|[]] self1].
    + destruct e; reflexivity.
    + destruct (coordinator._fetch_departures w self1) as [[e|ds] self2];
        [destruct e|]; reflexivity.
Qed.

(** X8.  A network error never leaves [_async_update_data] as it is: the
    method never raises [aiohttp.ClientError], and when the name of the
    stop is known and the POST raises a [ClientError] the method raises
    [UpdateFailed] with the message "Error communicating with API: "
    followed by the error's text, leaving the coordinator as it was. *)
Theorem async_update_data_converts_ClientError
    (w : World) (self : Coordinator) :
  (forall msg,
     fst (coordinator._async_update_data w self) <> inl (ClientError msg))
  /\ forall msg,
       stop_name self <> None ->
       session_post w DEPARTURES_API_ENDPOINT
         (coordinator.url_encoded_data (stop_id self) (now_request w))
       = inl (ClientError msg) ->
       coordinator._async_update_data w self
       = (inl (UpdateFailed ("Error communicating with API: " ++ msg)), self).
Proof.
  split.
  - intros msg. rewrite async_update_data_cases. cbv zeta.
    destruct (match stop_name self with
              | None => coordinator._fetch_stop_info w self
              | Some _ => (inr tt, self)
              end) as [[e|[]] self1].
    + destruct e; discriminate.
    + destruct (coordinator._fetch_departures w self1) as [[e|ds] self2];
        [destruct e|]; discriminate.
  - intros msg Named Post. rewrite async_update_data_cases. cbv zeta.
    destruct (stop_name self); [|contradiction].
    now rewrite fetch_departures_cases, Post.
Qed.


(** What a cycle never touches: the stop id, the direction and the
    published snapshot; and its metadata once the name is known. *)
Lemma async_update_data_keeps (w : World) (self : Coordinator) :
  let self' := snd (coordinator._async_update_data w self) in
  stop_id self' = stop_id self
  /\ direction self' = direction self
  /\ data self' = data self
  /\ (stop_name self <> None ->
      stop_name self' = stop_name self
      /\ stopping_lines self' = stopping_lines self).
Proof.
  rewrite async_update_data_cases. cbv zeta.
  assert (Departures : forall self1,
    let self2 := snd (coordinator._fetch_departures w self1) in
    stop_id self2 = stop_id self1 /\ direction self2 = direction self1
    /\ data self2 = data self1 /\ stop_name self2 = stop_name self1
    /\ stopping_lines self2 = stopping_lines self1).
  { intros self1. rewrite fetch_departures_cases.
    destruct (session_post w _ _) as [e|response]; [now repeat split|].
    destruct (status response =? 200)%Z; [|now repeat split].
    destruct (j_departures (json response)); now repeat split. }
  destruct (stop_name self) as [name|] eqn:Name.
  - pose proof (Departures self) as D. cbv zeta in D.
    destruct (coordinator._fetch_departures w self) as [[e|ds] self2];
      simpl in *; destruct D as [I [R [D [N L]]]];
      (split; [exact I|split; [exact R|split; [exact D|]]]);
      intros _; split; congruence.
  - destruct (fetch_stop_info_frame w self) as [I [_ [R [D _]]]].
    destruct (coordinator._fetch_stop_info w self) as [[e|[]] self1];
      simpl in *.
    + split; [exact I|split; [exact R|split; [exact D|]]].
      intros C; now contradiction C.
    + pose proof (Departures self1) as D2. cbv zeta in D2.
      destruct (coordinator._fetch_departures w self1) as [[e|ds] self2];
        simpl in *; destruct D2 as [I2 [R2 [D2 _]]];
        (split; [congruence|split; [congruence|split; [congruence|]]]);
        intros C; now contradiction C.
Qed.

(** X10.  The outcome of a refresh cycle.  When it succeeds, the POST was
    answered with status 200 and a [departures] field for this stop; the
    published snapshot holds that field as it is and agrees with the
    coordinator on stop name, stopping lines and last update, which is the
    formatted time of the stamp.  When it fails, the snapshot published
    before is still there.  The stop id and the direction never change. *)
Theorem async_refresh_outcome (w : World) (self : Coordinator) :
  let after := coordinator.async_refresh w self in
  stop_id after = stop_id self
  /\ direction after = direction self
  /\ if last_update_success after then
       exists snapshot response,
         data after = Some snapshot
         /\ session_post w DEPARTURES_API_ENDPOINT
              (coordinator.url_encoded_data (stop_id self) (now_request w))
            = inr response
         /\ status response = 200%Z
         /\ j_departures (json response) = Some (d_departures snapshot)
         /\ d_stop_name snapshot = stop_name after
         /\ d_stopping_lines snapshot = stopping_lines after
         /\ d_last_update snapshot = last_update after
         /\ last_update after = strftime.dmY_HMS (now_stamp w)
     else data after = data self.
Proof.
  intros after. unfold after, coordinator.async_refresh.
  destruct (async_update_data_keeps w self) as [I [R [D _]]].
  cbv zeta in I, R, D. revert I R D.
  rewrite async_update_data_cases. cbv zeta.
  assert (Id : stop_id
                 (snd (match stop_name self with
                       | None => coordinator._fetch_stop_info w self
                       | Some _ => (inr tt, self)
                       end)) = stop_id self).
  { destruct (stop_name self); [reflexivity|].
    now destruct (fetch_stop_info_frame w self). }
  destruct (match stop_name self with
            | None => coordinator._fetch_stop_info w self
            | Some _ => (inr tt, self)
            end) as [[e|[]] self1]; simpl in Id.
  - simpl. intros I R D. now repeat split.
  - rewrite fetch_departures_cases, Id.
    destruct (session_post w _ _) as [e|response] eqn:Post;
      [simpl; intros I R D; now repeat split|].
    destruct (Z.eqb_spec (status response) 200) as [S|S];
      [|simpl; intros I R D; now repeat split].
    destruct (j_departures (json response)) as [ds|] eqn:F;
      [|simpl; intros I R D; now repeat split].
    simpl. intros I R D. split; [exact I|]. split; [exact R|].
    eexists _, response. now repeat split.
Qed.

(** X11.  The stop info is fetched only while the stop name is unknown:
    once the coordinator has a name, a cycle does not depend on what the
    stop endpoint would answer, and it leaves name and stopping lines as
    they are. *)
Theorem stop_info_fetched_only_without_name
    (w w' : World) (self : Coordinator) :
  stop_name self <> None ->
  (forall url body, session_post w' url body = session_post w url body) ->
  now_request w' = now_request w ->
  now_stamp w' = now_stamp w ->
  coordinator._async_update_data w' self
    = coordinator._async_update_data w self
  /\ stop_name (snd (coordinator._async_update_data w self)) = stop_name self
  /\ stopping_lines (snd (coordinator._async_update_data w self))
     = stopping_lines self.
Proof.
  intros Named Post Request Stamp. split.
  - rewrite !async_update_data_cases. cbv zeta.
    destruct (stop_name self); [|contradiction].
    rewrite !fetch_departures_cases. rewrite Post, Request, Stamp.
    reflexivity.
  - destruct (async_update_data_keeps w self) as [_ [_ [_ Meta]]].
    exact (Meta Named).
Qed.

(** X12.  The stop info is best effort for network errors only.  When the
    name is unknown and the GET raises [aiohttp.ClientError], the cycle
    goes on to the departures and succeeds with them, the snapshot having
    no stop name.  When the GET raises anything else, that exception
    leaves the cycle as it is and the departures are not requested. *)
Theorem stop_info_failure_in_cycle (w : World) (self : Coordinator) :
  stop_name self = None ->
  (forall msg response departures,
     session_get w (coordinator.stop_info_url (stop_id self))
       = inl (ClientError msg) ->
     session_post w DEPARTURES_API_ENDPOINT
       (coordinator.url_encoded_data (stop_id self) (now_request w))
       = inr response ->
     status response = 200%Z ->
     j_departures (json response) = Some departures ->
     fst (coordinator._async_update_data w self)
     = inr {| d_departures := departures;
              d_stop_name := None;
              d_stopping_lines := stopping_lines self;
              d_last_update := strftime.dmY_HMS (now_stamp w) |})
  /\ forall e,
       session_get w (coordinator.stop_info_url (stop_id self)) = inl e ->
       (forall msg, e <> ClientError msg) ->
       coordinator._async_update_data w self = (inl e, self).
Proof.
  intros Unknown. split.
  - intros msg response ds Get Post S F.
    rewrite async_update_data_cases. cbv zeta. rewrite Unknown.
    unfold coordinator._fetch_stop_info, coordinator.except_ClientError,
      coordinator.bind at 1, coordinator.read at 1, coordinator.bind at 1,
      coordinator.await at 1.
    rewrite Get. unfold coordinator.ret at 1.
    rewrite fetch_departures_cases, Post, S, F. simpl. now rewrite Unknown.
  - intros e Get NotClient.
    rewrite async_update_data_cases. cbv zeta. rewrite Unknown.
    unfold coordinator._fetch_stop_info, coordinator.except_ClientError,
      coordinator.bind at 1, coordinator.read at 1, coordinator.bind at 1,
      coordinator.await at 1.
    rewrite Get.
    destruct e; try reflexivity. now contradiction (NotClient msg).
Qed.

End Cycle.

(** The departures endpoint cannot be reached: the cycle of a coordinator
    that knows its stop raises [UpdateFailed]. *)
Lemma async_update_data_converts_ClientError_witness :
  coordinator._async_update_data
    (example.world (inr example.this_stop) (inl (ClientError "down")))
    (example.published [])
  = (inl (UpdateFailed "Error communicating with API: down"),
     example.published []).
Proof.
  apply (proj2 (async_update_data_converts_ClientError
                  (example.world (inr example.this_stop)
                     (inl (ClientError "down")))
                  (example.published []))).
  - discriminate.
  - reflexivity.
Defined.

(** A coordinator that knows its stop runs the same cycle whether the stop
    endpoint would answer about stop 999 or could not be reached. *)
Lemma stop_info_fetched_only_without_name_witness :
  coordinator._async_update_data
    (example.world (inl (ClientError "down")) (inr (example.board [])))
    (example.published [])
  = coordinator._async_update_data
      (example.world (inr example.other_stop) (inr (example.board [])))
      (example.published []).
Proof.
  apply (stop_info_fetched_only_without_name
           (example.world (inr example.other_stop) (inr (example.board [])))
           (example.world (inl (ClientError "down"))
              (inr (example.board [])))
           (example.published []));
    [discriminate|reflexivity|reflexivity|reflexivity].
Defined.

(** The stop endpoint cannot be reached on the first cycle: the departures
    are published without a stop name. *)
Lemma stop_info_failure_in_cycle_witness :
  fst (coordinator._async_update_data
         (example.world (inl (ClientError "down"))
            (inr (example.board [])))
         example.fresh)
  = inr {| d_departures := [];
           d_stop_name := None;
           d_stopping_lines := [];
           d_last_update := "12.10.2026 14:30:00" |}.
Proof.
  apply (proj1 (stop_info_failure_in_cycle
                  (example.world (inl (ClientError "down"))
                     (inr (example.board [])))
                  example.fresh eq_refl)
           "down" (example.board []) []);
    reflexivity.
Defined.

(** ** sensor.py on top of the coordinator *)

Section SensorOnCoordinator.
Context `{Directions} `{Host}.

(** The whole attribute bag on a published snapshot. *)
Lemma extra_state_attributes_bag
    (self : Sensor) (c : Coordinator) (d : Snapshot) (k : nat) :
  data c = Some d ->
  exists (entries : list DepartureAttributes) (k' : nat),
    sensor.extra_state_attributes self c k
    = (inr {| at_last_update := d_last_update d;
              at_departures := entries;
              at_stop_name :=
                if Py.truthy_str (d_stop_name d) then d_stop_name d
                else None;
              at_stopping_lines :=
                if Py.truthy_list (d_stopping_lines d)
                then d_stopping_lines d else [];
              at_max_departures := _max_departures self;
              at_filter_lines := _filter_lines self;
              at_direction := direction c |}, k')
    /\ Forall2 (fun entry departure => entry_of departure entry) entries
         (Py.slice_to
            (filter (sensor._should_include_departure self) (d_departures d))
            (_max_departures self)).
Proof.
  intros D. unfold sensor.extra_state_attributes. rewrite D.
  destruct (details_loop
    (Py.slice_to
       (filter (sensor._should_include_departure self) (d_departures d))
       (_max_departures self)) [] k) as [entries [k' [Run All]]].
  unfold sensor.bind at 1. rewrite Run. simpl.
  now exists entries, k'.
Qed.

(** The two properties read the coordinator's snapshot and direction and
    nothing else of it. *)
Lemma sensor_reads (self : Sensor) (c c' : Coordinator) (k : nat) :
  data c' = data c -> direction c' = direction c ->
  sensor.native_value self c' k = sensor.native_value self c k
  /\ sensor.extra_state_attributes self c' k
     = sensor.extra_state_attributes self c k.
Proof.
  intros D R. unfold sensor.native_value, sensor.extra_state_attributes.
  now rewrite D, R.
Qed.

(** X13.  A failed refresh cycle changes nothing of what a sensor shows:
    the state and the attributes read after the cycle are those read
    before it, whichever the sensor's settings. *)
Theorem failed_refresh_keeps_sensor
    (w : World) (c : Coordinator) (self : Sensor) (k : nat) :
  last_update_success (coordinator.async_refresh w c) = false ->
  sensor.native_value self (coordinator.async_refresh w c) k
    = sensor.native_value self c k
  /\ sensor.extra_state_attributes self (coordinator.async_refresh w c) k
     = sensor.extra_state_attributes self c k.
Proof.
  intros Failed. apply sensor_reads.
  - revert Failed. unfold coordinator.async_refresh.
    destruct (async_update_data_keeps w c) as [_ [_ [D _]]].
    cbv zeta in D.
    destruct (coordinator._async_update_data w c) as [[e|snapshot] c'];
      simpl in *; [intros _; exact D|discriminate].
  - unfold coordinator.async_refresh.
    destruct (async_update_data_keeps w c) as [_ [R _]]. cbv zeta in R.
    destruct (coordinator._async_update_data w c) as [[e|snapshot] c'];
      simpl in *; exact R.
Qed.


(** X15.  Before the first snapshot is published the state is unset, read
    without consulting the clock, while reading the attributes raises
    [AttributeError]: [data] is dereferenced before it is tested. *)
Theorem sensor_without_snapshot
    (self : Sensor) (c : Coordinator) (k : nat) :
  data c = None ->
  sensor.native_value self c k = (None, k)
  /\ exists msg,
       sensor.extra_state_attributes self c k
       = (inl (AttributeError msg), k).
Proof.
  intros D. unfold sensor.native_value, sensor.extra_state_attributes.
  rewrite D. split; [reflexivity|]. eexists. reflexivity.
Qed.


End SensorOnCoordinator.

(** The published board of stop 123 survives a response without the
    [departures] field: the headline is the same after the cycle. *)
Lemma failed_refresh_keeps_sensor_witness :
  let w := example.world (inr example.this_stop)
             (inr example.no_departures_field) in
  let c :=
    example.published
      [example.departure (Some "21") (Some "Centrum") (Some 1300) None None] in
  @sensor.native_value example.directions (example.host 1000)
    (example.sensor_all 10 []) (coordinator.async_refresh w c) 0%nat
  = (Some "21 -> Centrum in 5 min", 1%nat).
Proof.
  intros w c.
  rewrite (proj1 (@failed_refresh_keeps_sensor example.directions
                    (example.host 1000) w c (example.sensor_all 10 []) 0%nat
                    eq_refl)).
  reflexivity.
Defined.


(** A sensor on a freshly constructed coordinator. *)
Lemma sensor_without_snapshot_witness :
  @sensor.native_value example.directions (example.host 1000)
    (example.sensor_all 10 []) example.fresh 0%nat
  = (None, 0%nat).
Proof.
  exact (proj1 (@sensor_without_snapshot example.directions
                  (example.host 1000) (example.sensor_all 10 [])
                  example.fresh 0%nat eq_refl)).
Defined.


(** ** sensor.py: headline and attribute list together *)

Section HeadlineAndDetails.
Context `{Directions} `{Host}.

(** X17.  The state is unset exactly when there is no snapshot or no
    departure of the snapshot passes the filter.  Reading the state
    consults the clock at most once, and not at all when the state is
    unset. *)
Theorem native_value_unset_iff (self : Sensor) (c : Coordinator) (k : nat) :
  (fst (sensor.native_value self c k) = None
   <-> data c = None
       \/ exists d,
            data c = Some d
            /\ filter (sensor._should_include_departure self)
                 (d_departures d) = [])
  /\ (snd (sensor.native_value self c k) = k
      \/ snd (sensor.native_value self c k) = S k)
  /\ (fst (sensor.native_value self c k) = None ->
      snd (sensor.native_value self c k) = k).
Proof.
  destruct (data c) as [d|] eqn:D.
  - destruct (filter (sensor._should_include_departure self) (d_departures d))
      as [|first rest] eqn:F.
    + unfold sensor.native_value. rewrite D, F. simpl.
      split; [|split; [now left|reflexivity]].
      split; [|reflexivity]. intros _. right. now exists d.
    + rewrite (native_value_first self c d k first rest D F).
      destruct (Py.truthy_int (plannedDepartureTimestamp first)); simpl;
        (split; [|split; [auto|discriminate]]);
        (split; [discriminate|]);
        intros [E|[d' [E F']]]; try discriminate;
        injection E as <-; rewrite F in F'; discriminate.
  - unfold sensor.native_value. rewrite D. simpl.
    split; [|split; [now left|reflexivity]].
    split; [now left|reflexivity].
Qed.

(** The first entry of the list is made at the first reading of the
    clock. *)
Lemma first_entry
    (self : Sensor) (c : Coordinator) (d : Snapshot) (k : nat)
    (first : Departure) (rest : list Departure) :
  data c = Some d ->
  (1 <= _max_departures self)%Z ->
  filter (sensor._should_include_departure self) (d_departures d)
    = first :: rest ->
  exists (attrs : Attributes) (k' : nat) (entries : list DepartureAttributes),
    sensor.extra_state_attributes self c k = (inr attrs, k')
    /\ at_departures attrs
       = fst (sensor.departure_attributes first k) :: entries.
Proof.
  intros D Max F. unfold sensor.extra_state_attributes. rewrite D, F.
  unfold Py.slice_to.
  destruct (Z.leb_spec 0 (_max_departures self)) as [_|Neg]; [|lia].
  destruct (Z.to_nat (_max_departures self)) as [|n] eqn:N; [lia|].
  cbn [firstn sensor.for_each].
  unfold sensor.bind at 1. unfold sensor.bind at 1.
  unfold sensor.bind at 1.
  destruct (sensor.departure_attributes first k) as [entry k1].
  unfold sensor.ret at 1. cbn [app fst].
  destruct (details_loop (firstn n rest) [entry] k1)
    as [entries [k' [Run _]]].
  rewrite Run. simpl. now eexists _, k', entries.
Qed.



End HeadlineAndDetails.



(** ** sensor.py: more on the filter and on the entries *)

Section FilterAndEntries.
Context `{Directions} `{Host}.

(** X20.  The two direction modes split what the mode "all" shows: for
    sensors with the same filter lines, a departure is included under
    [DIRECTION_ALL] iff it is included under [DIRECTION_HERE] or under
    another mode, and never under both.  The direction constants are
    assumed distinct. *)
Theorem directions_partition
    (filter_lines : list string) (there : string) (max_all max_here
    max_there : Z) (departure : Departure) :
  DIRECTION_HERE <> DIRECTION_ALL ->
  there <> DIRECTION_ALL ->
  there <> DIRECTION_HERE ->
  let included direction max :=
    sensor._should_include_departure
      {| _max_departures := max; _filter_lines := filter_lines;
         _direction := direction |}
      departure in
  included DIRECTION_ALL max_all
    = included DIRECTION_HERE max_here || included there max_there
  /\ included DIRECTION_HERE max_here && included there max_there = false.
Proof.
  intros HA TA TH included. unfold included,
    sensor._should_include_departure.
  cbn [_filter_lines _direction]. cbv zeta.
  apply String.eqb_neq in HA, TA, TH.
  rewrite !String.eqb_refl, HA, TA, TH. cbn [negb andb].
  destruct (Py.truthy_list filter_lines
            && (negb (Py.truthy_str (sensor.get_line departure))
                || negb (Py.str_in (Py.get (sensor.get_line departure) "")
                           filter_lines)));
    [now split|].
  destruct (Py.opt_str_eqb (sensor.get_direction departure) "here");
    now split.
Qed.


End FilterAndEntries.

(** Sensors for "all", "here" and "there" on lines 21 and 39: an arrival
    of line 21 is shown by the first two. *)
Lemma directions_partition_witness :
  let arrival :=
    example.departure (Some "21") (Some "Centrum") None None (Some "here") in
  let included direction :=
    @sensor._should_include_departure example.directions
      {| _max_departures := 10; _filter_lines := ["21"; "39"];
         _direction := direction |}
      arrival in
  included "all" = included "here" || included "there"
  /\ included "here" && included "there" = false.
Proof.
  intros arrival included.
  apply (@directions_partition example.directions ["21"; "39"] "there"
           10 10 10 arrival); discriminate.
Defined.


(** ** sensor.py: readings of the clock *)

Section ClockReadings.
Context `{Directions} `{Host}.

(** One entry costs one reading when it has a calculated time and none
    otherwise. *)
Lemma departure_attributes_clock (departure : Departure) (k : nat) :
  snd (sensor.departure_attributes departure k)
  = (k + match
           attr_departute_calculated
             (fst (sensor.departure_attributes departure k))
         with
         | Some _ => 1
         | None => 0
         end)%nat.
Proof.
  unfold sensor.departure_attributes.
  destruct (Py.truthy_int (plannedDepartureTimestamp departure)); simpl; lia.
Qed.

(** The loop with its count of readings. *)
Lemma details_loop_clock (l : list Departure) :
  forall (acc : list DepartureAttributes) (k : nat),
  exists entries : list DepartureAttributes,
    sensor.for_each l
      (fun departure acc =>
         sensor.bind (sensor.departure_attributes departure)
           (fun entry => sensor.ret (acc ++ [entry])%list))
      acc k
    = ((acc ++ entries)%list,
       (k + List.length
              (filter (fun entry =>
                         match attr_departute_calculated entry with
                         | Some _ => true
                         | None => false
                         end) entries))%nat).
Proof.
  induction l as [|departure l IH]; intros acc k; simpl.
  - exists []. rewrite app_nil_r. unfold sensor.ret. simpl.
    now rewrite Nat.add_0_r.
  - unfold sensor.bind at 1. unfold sensor.bind at 1.
    pose proof (departure_attributes_clock departure k) as Clock.
    destruct (sensor.departure_attributes departure k) as [entry k1].
    simpl in Clock. unfold sensor.ret at 1.
    destruct (IH (acc ++ [entry])%list k1) as [entries Run].
    exists (entry :: entries). rewrite Run, <- app_assoc. simpl.
    f_equal. rewrite Clock.
    destruct (attr_departute_calculated entry); simpl; lia.
Qed.


End ClockReadings.


(** ** helpers.py: the readable name *)

Section Name.
Context `{Directions}.

(** X23.  The name is "Bus Stop" and the stop id, followed (when there are
    filter lines) by the lines sorted ascending and joined by ", " between
    " (Lines: " and ")", followed (when the direction is not
    [DIRECTION_ALL]) by " direction here" for [DIRECTION_HERE] and
    " direction there" for any other value; it does not depend on the order
    of the filter lines. *)
Theorem generate_name_spec
    (stop_id : string) (filter_lines : list string) (direction : string) :
  helpers.generate_name stop_id filter_lines direction
    = "Bus Stop " ++ stop_id
        ++ match filter_lines with
           | [] => ""
           | _ :: _ =>
               " (Lines: " ++ Py.join ", " (Py.sorted filter_lines) ++ ")"
           end
        ++ (if String.eqb direction DIRECTION_ALL then ""
            else if String.eqb direction DIRECTION_HERE
                 then " direction here"
                 else " direction there")
  /\ forall filter_lines',
       Permutation filter_lines filter_lines' ->
       helpers.generate_name stop_id filter_lines' direction
         = helpers.generate_name stop_id filter_lines direction.
Proof.
  split.
  - unfold helpers.generate_name.
    destruct filter_lines as [|l ls];
      destruct (String.eqb direction DIRECTION_ALL);
      destruct (String.eqb direction DIRECTION_HERE);
      cbn [Py.truthy_list negb append];
      rewrite ?append_empty_r, ?append_assoc; cbn [append];
      rewrite ?append_assoc; reflexivity.
  - intros filter_lines' P. unfold helpers.generate_name.
    now rewrite (truthy_list_permutation _ _ P),
      (sorted_permutation_invariant _ _ P).
Qed.

End Name.

(** Stop 123 with lines 39 and 21 in the other direction. *)
Lemma generate_name_spec_witness :
  @helpers.generate_name example.directions "123" ["21"; "39"] "there"
  = @helpers.generate_name example.directions "123" ["39"; "21"] "there"
  /\ @helpers.generate_name example.directions "123" ["39"; "21"] "there"
     = "Bus Stop 123 (Lines: 21, 39) direction there".
Proof.
  split; [|reflexivity].
  apply (proj2 (@generate_name_spec example.directions "123" ["39"; "21"]
                  "there")).
  apply perm_swap.
Defined.

(** * The untyped wire format *)

(** ** The typed records inside the untyped values *)

Section WireLookups.

Lemma eq_str_iff (x : wire.json) (s : string) :
  wire.eq_str x s = true <-> x = wire.JStr s.
Proof.
  destruct x; simpl; try (split; discriminate).
  rewrite String.eqb_eq. split; congruence.
Qed.

Lemma get_empty (key : string) (default : wire.json) :
  wire.get (wire.JDict []) key default = inr default.
Proof. reflexivity. Qed.

Lemma get_of_departure (d : Departure) (default : wire.json) :
  wire.get (wire.of_departure d) "timeTableTrip" default
    = inr (Py.get (option_map wire.of_trip (timeTableTrip d)) default)
  /\ wire.get (wire.of_departure d) "plannedDepartureTimestamp" default
     = inr (Py.get (option_map wire.JInt (plannedDepartureTimestamp d))
              default)
  /\ wire.get (wire.of_departure d) "delayMinutes" default
     = inr (Py.get (option_map wire.JInt (delayMinutes d)) default)
  /\ wire.get (wire.of_departure d) "platformNumber" default
     = inr (Py.get (option_map wire.JStr (platformNumber d)) default).
Proof.
  destruct d as [[t|] [p|] [m|] [n|]]; repeat split; reflexivity.
Qed.

Lemma get_of_trip (t : TimeTableTrip) (default : wire.json) :
  wire.get (wire.of_trip t) "timeTableLine" default
    = inr (Py.get (option_map wire.of_line (timeTableLine t)) default)
  /\ wire.get (wire.of_trip t) "destinationStopName" default
     = inr (Py.get (option_map wire.JStr (destinationStopName t)) default)
  /\ wire.get (wire.of_trip t) "ezTripDirection" default
     = inr (Py.get (option_map wire.JStr (ezTripDirection t)) default).
Proof.
  destruct t as [[l|] [n|] [r|]]; repeat split; reflexivity.
Qed.

Lemma get_of_line (l : TimeTableLine) (default : wire.json) :
  wire.get (wire.of_line l) "line" default
  = inr (Py.get (option_map wire.JStr (line l)) default).
Proof. destruct l as [[s|]]; reflexivity. Qed.

(** The chained lookups on a typed departure. *)
Lemma get_line_of_departure (d : Departure) (default : wire.json) :
  wire.get_line (wire.of_departure d) default
  = inr (Py.get (option_map wire.JStr (sensor.get_line d)) default).
Proof.
  unfold wire.get_line, sensor.get_line.
  rewrite (proj1 (get_of_departure d _)).
  destruct (timeTableTrip d) as [t|]; cbn [option_map Py.get wire.bind].
  - rewrite (proj1 (get_of_trip t _)).
    destruct (timeTableLine t) as [l|]; cbn [option_map Py.get wire.bind].
    + apply get_of_line.
    + reflexivity.
  - reflexivity.
Qed.

Lemma get_destination_of_departure (d : Departure) (default : wire.json) :
  wire.get_destination (wire.of_departure d) default
  = inr (Py.get (option_map wire.JStr (sensor.get_destination d)) default).
Proof.
  unfold wire.get_destination, sensor.get_destination.
  rewrite (proj1 (get_of_departure d _)).
  destruct (timeTableTrip d) as [t|]; cbn [option_map Py.get wire.bind].
  - apply (proj1 (proj2 (get_of_trip t _))).
  - reflexivity.
Qed.

Lemma get_direction_of_departure (d : Departure) :
  wire.get_direction (wire.of_departure d)
  = inr (wire.of_option (sensor.get_direction d)).
Proof.
  unfold wire.get_direction, sensor.get_direction.
  rewrite (proj1 (get_of_departure d _)).
  destruct (timeTableTrip d) as [t|]; cbn [option_map Py.get wire.bind].
  - rewrite (proj2 (proj2 (get_of_trip t _))).
    now destruct (ezTripDirection t).
  - reflexivity.
Qed.

End WireLookups.

(** ** The sensor on typed records, read as untyped JSON *)

Section WireSensor.
Context `{Directions} `{Host} `{wire.Builtins}.

(** The filter decides an encoded typed departure as the typed filter
    does, and does not raise. *)
Lemma should_include_of_departure (self : Sensor) (d : Departure) :
  wire._should_include_departure self (wire.of_departure d)
  = inr (sensor._should_include_departure self d).
Proof.
  unfold wire._should_include_departure, sensor._should_include_departure.
  rewrite get_line_of_departure, get_direction_of_departure.
  destruct (Py.truthy_list (_filter_lines self));
    destruct (sensor.get_line d) as [l|];
    destruct (sensor.get_direction d) as [r|];
    cbn [option_map Py.get wire.bind wire.truthy wire.in_strs wire.of_option
         wire.eq_str Py.truthy_str Py.opt_str_eqb andb orb negb];
    repeat match goal with
      | |- context [if ?b then _ else _] => destruct b
      end; reflexivity.
Qed.

Lemma comprehension_of_departures (self : Sensor) (ds : list Departure) :
  wire.comprehension (wire._should_include_departure self)
    (map wire.of_departure ds)
  = inr (map wire.of_departure
           (filter (sensor._should_include_departure self) ds)).
Proof.
  induction ds as [|d ds IH]; [reflexivity|].
  cbn [map wire.comprehension filter].
  rewrite should_include_of_departure, IH. cbn [wire.bind].
  now destruct (sensor._should_include_departure self d).
Qed.

Lemma slice_to_map {A B : Type} (f : A -> B) (l : list A) (n : Z) :
  Py.slice_to (map f l) n = map f (Py.slice_to l n).
Proof.
  unfold Py.slice_to. rewrite length_map.
  destruct (0 <=? n); now rewrite firstn_map.
Qed.

Lemma departure_attributes_of_departure (d : Departure) (k : nat) :
  wire.timestamps_accepted d = true ->
  wire.departure_attributes (wire.of_departure d) k
  = (inr (wire.of_entry (fst (sensor.departure_attributes d k))),
     snd (sensor.departure_attributes d k)).
Proof.
  intros A. unfold wire.timestamps_accepted in A.
  unfold wire.departure_attributes, sensor.departure_attributes.
  unfold wire.bind_clock, wire.lift, wire.ret, sensor.bind, sensor.ret.
  destruct (get_of_departure d wire.JNull) as (_ & -> & _ & P).
  destruct (get_of_departure d (wire.JInt 0)) as (_ & _ & -> & _).
  rewrite P, get_line_of_departure, get_destination_of_departure,
    get_direction_of_departure.
  destruct (plannedDepartureTimestamp d) as [p|]; cbn [option_map Py.get].
  - cbn [wire.truthy Py.truthy_int].
    destruct (p =? 0) eqn:Z0; cbn [negb orb] in *.
    + cbn. unfold wire.of_entry. cbn.
      destruct (delayMinutes d), (sensor.get_line d),
        (sensor.get_destination d), (platformNumber d); reflexivity.
    + apply andb_prop in A. destruct A as [A1 A2].
      replace (wire.int (Py.get (option_map wire.JInt (delayMinutes d))
                           (wire.JInt 0)))
        with (@inr exn Z (Py.get (delayMinutes d) 0))
        by now destruct (delayMinutes d).
      cbn [wire.int wire.timestamp wire.utcnow sensor.utcnow
           sensor._calculate_time_until_departure fst snd].
      unfold sensor.bind, sensor.ret, sensor.utcnow,
        sensor._calculate_departure_time, wire.local_HM.
      cbn [fst snd Py.truthy_int Py.get]. rewrite A1.
      destruct (p + Py.get (delayMinutes d) 0 * 60 =? 0) eqn:C0;
        cbn [negb orb] in *.
      * unfold wire.of_entry. cbn.
        destruct (delayMinutes d), (sensor.get_line d),
          (sensor.get_destination d), (platformNumber d); reflexivity.
      * rewrite A2. unfold wire.of_entry. cbn.
        destruct (delayMinutes d), (sensor.get_line d),
          (sensor.get_destination d), (platformNumber d); reflexivity.
  - cbn. unfold wire.of_entry. cbn.
    destruct (delayMinutes d), (sensor.get_line d),
      (sensor.get_destination d), (platformNumber d); reflexivity.
Qed.

Lemma forallb_slice_filter {A : Type} (p q : A -> bool) (l : list A) (n : Z) :
  forallb p l = true -> forallb p (Py.slice_to (filter q l) n) = true.
Proof.
  rewrite !forallb_forall. intros P x I. apply P.
  assert (In x (filter q l)) as F.
  { unfold Py.slice_to in I.
    destruct (0 <=? n);
      match type of I with
      | In _ (firstn ?m ?l') =>
          rewrite <- (firstn_skipn m l'); apply in_or_app; now left
      end. }
  now apply filter_In in F.
Qed.

Lemma for_each_of_departures (ds : list Departure)
    (acc : list DepartureAttributes) (k : nat) :
  forallb wire.timestamps_accepted ds = true ->
  wire.for_each (map wire.of_departure ds)
    (fun departure acc =>
       wire.bind_clock (wire.departure_attributes departure)
         (fun entry => wire.ret (acc ++ [entry])%list))
    (map wire.of_entry acc) k
  = (inr (map wire.of_entry
            (fst (sensor.for_each ds
                    (fun departure acc =>
                       sensor.bind (sensor.departure_attributes departure)
                         (fun entry => sensor.ret (acc ++ [entry])%list))
                    acc k))),
     snd (sensor.for_each ds
            (fun departure acc =>
               sensor.bind (sensor.departure_attributes departure)
                 (fun entry => sensor.ret (acc ++ [entry])%list))
            acc k)).
Proof.
  revert acc k. induction ds as [|d ds IH]; intros acc k A; [reflexivity|].
  cbn [forallb] in A. apply andb_prop in A. destruct A as [A1 A2].
  cbn [map wire.for_each sensor.for_each].
  unfold wire.bind_clock at 1 2. unfold sensor.bind at 1 2 4 5.
  rewrite (departure_attributes_of_departure d k A1).
  destruct (sensor.departure_attributes d k) as [entry k'].
  cbn [fst snd wire.ret sensor.ret].
  specialize (IH (acc ++ [entry])%list k' A2).
  rewrite map_app in IH. exact IH.
Qed.

Lemma departures_attribute_of_departures (self : Sensor) (c : Coordinator)
    (d : Snapshot) (k : nat) :
  data c = Some d ->
  forallb wire.timestamps_accepted (d_departures d) = true ->
  exists attributes k',
    sensor.extra_state_attributes self c k = (inr attributes, k')
    /\ wire.departures_attribute self
         (map wire.of_departure (d_departures d)) k
       = (inr (map wire.of_entry (at_departures attributes)), k').
Proof.
  intros D A.
  unfold sensor.extra_state_attributes, wire.departures_attribute.
  rewrite D. unfold wire.bind_clock at 1. unfold wire.lift.
  rewrite comprehension_of_departures. cbv beta iota.
  rewrite slice_to_map. unfold sensor.bind at 1.
  pose proof (for_each_of_departures
                (Py.slice_to
                   (filter (sensor._should_include_departure self)
                      (d_departures d)) (_max_departures self))
                [] k
                (forallb_slice_filter _ _ _ _ A)) as L.
  cbn [map] in L. rewrite L.
  destruct (sensor.for_each _ _ [] k) as [entries k'].
  eexists _, k'. split; reflexivity.
Qed.

Lemma native_value_of_departures (self : Sensor) (c : Coordinator)
    (d : Snapshot) (k : nat) :
  data c = Some d ->
  wire.native_value self (map wire.of_departure (d_departures d)) k
  = (inr (fst (sensor.native_value self c k)),
     snd (sensor.native_value self c k)).
Proof.
  intros D. unfold wire.native_value, sensor.native_value. rewrite D.
  unfold wire.bind_clock at 1. unfold wire.lift at 1.
  rewrite comprehension_of_departures.
  destruct (filter (sensor._should_include_departure self) (d_departures d))
    as [|first rest]; [reflexivity|].
  cbn [map]. unfold wire.bind_clock, wire.lift, wire.ret.
  rewrite get_line_of_departure, get_destination_of_departure.
  destruct (get_of_departure first wire.JNull) as (_ & -> & _ & _).
  destruct (get_of_departure first (wire.JInt 0)) as (_ & _ & -> & _).
  replace (wire.str (Py.get (option_map wire.JStr (sensor.get_line first))
                       (wire.JStr "Unknown")))
    with (Py.get (sensor.get_line first) "Unknown")
    by now destruct (sensor.get_line first).
  replace (wire.str
             (Py.get (option_map wire.JStr (sensor.get_destination first))
                (wire.JStr "Unknown")))
    with (Py.get (sensor.get_destination first) "Unknown")
    by now destruct (sensor.get_destination first).
  destruct (plannedDepartureTimestamp first) as [p|];
    cbn [option_map Py.get wire.truthy Py.truthy_int negb];
    [|reflexivity].
  destruct (p =? 0); cbn [negb]; [reflexivity|].
  replace (wire.int (Py.get (option_map wire.JInt (delayMinutes first))
                       (wire.JInt 0)))
    with (@inr exn Z (Py.get (delayMinutes first) 0))
    by now destruct (delayMinutes first).
  reflexivity.
Qed.

Lemma Forall2_map_left {A B C : Type} (f : A -> B) (R : B -> C -> Prop)
    (l : list A) (l' : list C) :
  Forall2 (fun x y => R (f x) y) l l' -> Forall2 R (map f l) l'.
Proof. induction 1; cbn [map]; now constructor. Qed.


End WireSensor.



(** ** coordinator.py: stop metadata from an untyped answer *)

Section WireStopInfo.
Variable session_get : string -> result wire.Response.
Variable stop_id : string.

Lemma get_Some_str (value : option wire.json) (s : string) :
  Py.get value wire.JNull = wire.JStr s <-> value = Some (wire.JStr s).
Proof.
  destruct value as [v|]; cbn [Py.get]; split; congruence.
Qed.

(** The body of the [try] of [_fetch_stop_info] on an answer with status
    200 whose body is the JSON object with [items]. *)
Lemma fetch_stop_info_object (response : wire.Response)
    (items : list (string * wire.json)) :
  session_get (coordinator.stop_info_url stop_id) = inr response ->
  wire.code response = 200 ->
  wire.decoded response = inr (wire.JDict items) ->
  wire._fetch_stop_info session_get stop_id
  = if negb (wire.eq_str (Py.get (wire.lookup "status" items) wire.JNull)
               "ok")
       || negb (wire.truthy (Py.get (wire.lookup "stops" items) wire.JNull))
    then inr None
    else
      match wire.subscript0
              (Py.get (wire.lookup "stops" items) wire.JNull) with
      | inr (wire.JDict entry) =>
          inr (Some (Py.get (wire.lookup "stopName" entry) wire.JNull,
                     Py.get (wire.lookup "ezLines" entry) (wire.JList [])))
      | inr first =>
          inl (AttributeError
                 ("'" ++ wire.type_name first
                    ++ "' object has no attribute 'get'"))
      | inl e => inl e
      end.
Proof.
  intros A C B. unfold wire._fetch_stop_info. rewrite A. cbn [wire.bind].
  rewrite C, B. cbn [Z.eqb Pos.eqb negb wire.bind wire.get].
  destruct (wire.eq_str _ "ok"); cbn [negb orb]; [|reflexivity].
  destruct (wire.truthy _) eqn:T; cbn [negb]; [|reflexivity].
  destruct (Py.get (wire.lookup "stops" items) wire.JNull)
    as [| | |s|l|its]; try discriminate T; try reflexivity.
  - destruct s; [discriminate T|reflexivity].
  - destruct l as [|first rest]; [discriminate T|].
    cbn [wire.subscript0 wire.bind].
    destruct first; reflexivity.
Qed.

Lemma handled_raised (e : exn) :
  (forall message, e <> ClientError message) ->
  wire.except_ClientError (inl e) (fun _ => inr None)
  = (inl e : result (option (wire.json * wire.json))).
Proof. intros N. destruct e; try reflexivity. now elim (N msg). Qed.

Lemma handled_returns (e : exn) (r : option (wire.json * wire.json)) :
  wire.except_ClientError (inl e) (fun _ => inr None) = inr r ->
  r = None /\ exists message, e = ClientError message.
Proof.
  destruct e; try discriminate. intros E. injection E as <-.
  split; [reflexivity|now exists msg].
Qed.

Lemma fetch_stop_info_no_answer (e : exn) :
  session_get (coordinator.stop_info_url stop_id) = inl e ->
  wire._fetch_stop_info session_get stop_id
  = wire.except_ClientError (inl e) (fun _ => inr None).
Proof.
  intros A. unfold wire._fetch_stop_info. rewrite A. now destruct e.
Qed.

Lemma fetch_stop_info_not_200 (response : wire.Response) :
  session_get (coordinator.stop_info_url stop_id) = inr response ->
  wire.code response <> 200 ->
  wire._fetch_stop_info session_get stop_id = inr None.
Proof.
  intros A C. apply Z.eqb_neq in C.
  unfold wire._fetch_stop_info. rewrite A. cbn [wire.bind]. now rewrite C.
Qed.

Lemma fetch_stop_info_undecoded (response : wire.Response) (e : exn) :
  session_get (coordinator.stop_info_url stop_id) = inr response ->
  wire.code response = 200 ->
  wire.decoded response = inl e ->
  wire._fetch_stop_info session_get stop_id
  = wire.except_ClientError (inl e) (fun _ => inr None).
Proof.
  intros A C B. unfold wire._fetch_stop_info. rewrite A. cbn [wire.bind].
  rewrite C, B. now destruct e.
Qed.

Lemma fetch_stop_info_not_object (response : wire.Response)
    (body : wire.json) :
  session_get (coordinator.stop_info_url stop_id) = inr response ->
  wire.code response = 200 ->
  wire.decoded response = inr body ->
  (forall items, body <> wire.JDict items) ->
  wire._fetch_stop_info session_get stop_id
  = inl (AttributeError
           ("'" ++ wire.type_name body ++ "' object has no attribute 'get'")).
Proof.
  intros A C B N. unfold wire._fetch_stop_info. rewrite A. cbn [wire.bind].
  rewrite C, B. destruct body as [| | | | |items]; try reflexivity.
  now elim (N items).
Qed.

(** C6, as amended.  [_fetch_stop_info] assigns the stop metadata exactly
    when the endpoint answers with HTTP status 200 and a body that is a JSON
    object whose [status] is "ok" and whose [stops] is a list with an object
    first: the name is that object's [stopName], null when absent, and the
    lines are its [ezLines], the empty list when absent; its [stopID] is not
    read.  It returns without assigning exactly when the request or the
    decoding raises [aiohttp.ClientError], the HTTP status is not 200, or
    the body is an object whose [status] is not "ok" or whose [stops] is
    absent, null, empty or otherwise false.  It raises otherwise: any other
    exception of the request or of the decoding leaves the method, a body
    that is no object raises [AttributeError], and so does a first stop
    that is no object. *)
Theorem fetch_stop_info_outcomes :
  let answer := session_get (coordinator.stop_info_url stop_id) in
  let outcome := wire._fetch_stop_info session_get stop_id in
  (forall name lines,
     outcome = inr (Some (name, lines))
     <-> exists response items entry rest,
           answer = inr response
           /\ wire.code response = 200
           /\ wire.decoded response = inr (wire.JDict items)
           /\ wire.lookup "status" items = Some (wire.JStr "ok")
           /\ wire.lookup "stops" items
              = Some (wire.JList (wire.JDict entry :: rest))
           /\ name = Py.get (wire.lookup "stopName" entry) wire.JNull
           /\ lines = Py.get (wire.lookup "ezLines" entry) (wire.JList []))
  /\ (outcome = inr None
      <-> (exists message, answer = inl (ClientError message))
          \/ exists response,
               answer = inr response
               /\ (wire.code response <> 200
                   \/ (exists message,
                         wire.decoded response = inl (ClientError message))
                   \/ exists items,
                        wire.decoded response = inr (wire.JDict items)
                        /\ (Py.get (wire.lookup "status" items) wire.JNull
                            <> wire.JStr "ok"
                            \/ wire.truthy
                                 (Py.get (wire.lookup "stops" items)
                                    wire.JNull) = false)))
  /\ (forall e,
        (forall message, e <> ClientError message) ->
        (answer = inl e -> outcome = inl e)
        /\ forall response,
             answer = inr response -> wire.code response = 200 ->
             wire.decoded response = inl e -> outcome = inl e)
  /\ (forall response body,
        answer = inr response -> wire.code response = 200 ->
        wire.decoded response = inr body ->
        (forall items, body <> wire.JDict items) ->
        outcome
        = inl (AttributeError
                 ("'" ++ wire.type_name body
                    ++ "' object has no attribute 'get'")))
  /\ forall response items first rest,
       answer = inr response -> wire.code response = 200 ->
       wire.decoded response = inr (wire.JDict items) ->
       wire.lookup "status" items = Some (wire.JStr "ok") ->
       wire.lookup "stops" items = Some (wire.JList (first :: rest)) ->
       (forall entry, first <> wire.JDict entry) ->
       outcome
       = inl (AttributeError
                ("'" ++ wire.type_name first
                   ++ "' object has no attribute 'get'")).
Proof.
  intros answer outcome. split; [|split; [|split; [|split]]].
  - intros name lines. split.
    + intros E.
      destruct answer as [e|response] eqn:A.
      { unfold outcome in E. rewrite (fetch_stop_info_no_answer e A) in E.
        now destruct (handled_returns _ _ E). }
      destruct (Z.eq_dec (wire.code response) 200) as [C|C].
      2:{ unfold outcome in E.
          now rewrite (fetch_stop_info_not_200 response A C) in E. }
      destruct (wire.decoded response) as [e|body] eqn:B.
      { unfold outcome in E.
        rewrite (fetch_stop_info_undecoded response e A C B) in E.
        now destruct (handled_returns _ _ E). }
      destruct body as [| | | | |items];
        try (unfold outcome in E;
             now rewrite (fetch_stop_info_not_object response _ A C B)
               in E).
      unfold outcome in E.
      rewrite (fetch_stop_info_object response items A C B) in E.
      destruct (wire.eq_str _ "ok") eqn:S; cbn [negb orb] in E;
        [|discriminate E].
      apply eq_str_iff, get_Some_str in S.
      destruct (wire.truthy _) eqn:T; cbn [negb] in E; [|discriminate E].
      destruct (wire.lookup "stops" items) as [stops|] eqn:L;
        cbn [Py.get] in E, T; [|discriminate T].
      destruct stops as [| | |s|l|its]; try discriminate E.
      * destruct s; discriminate E.
      * destruct l as [|first rest]; [discriminate E|].
        cbn [wire.subscript0] in E.
        destruct first as [| | | | |entry]; try discriminate E.
        injection E as <- <-.
        exists response, items, entry, rest.
        repeat split; first [assumption | reflexivity].
    + intros (response & items & entry & rest & A & C & B & S & L & -> & ->).
      unfold outcome.
      rewrite (fetch_stop_info_object response items A C B), S, L.
      reflexivity.
  - split.
    + intros E.
      destruct answer as [e|response] eqn:A.
      { left. unfold outcome in E.
        rewrite (fetch_stop_info_no_answer e A) in E.
        now destruct (handled_returns _ _ E) as [_ [message ->]];
          exists message. }
      right. exists response. split; [reflexivity|].
      destruct (Z.eq_dec (wire.code response) 200) as [C|C];
        [right|now left].
      destruct (wire.decoded response) as [e|body] eqn:B.
      { left. unfold outcome in E.
        rewrite (fetch_stop_info_undecoded response e A C B) in E.
        now destruct (handled_returns _ _ E) as [_ [message ->]];
          exists message. }
      right.
      destruct body as [| | | | |items];
        try (unfold outcome in E;
             now rewrite (fetch_stop_info_not_object response _ A C B)
               in E).
      exists items. split; [reflexivity|].
      unfold outcome in E.
      rewrite (fetch_stop_info_object response items A C B) in E.
      destruct (wire.eq_str _ "ok") eqn:S; cbn [negb orb] in E.
      * right. destruct (wire.truthy _) eqn:T; [|reflexivity].
        cbn [negb] in E.
        destruct (Py.get (wire.lookup "stops" items) wire.JNull)
          as [| | |s|l|its]; try discriminate E; try discriminate T.
        -- destruct s; discriminate E.
        -- destruct l as [|first rest]; [discriminate T|].
           cbn [wire.subscript0] in E. destruct first; discriminate E.
      * left. intros Ok. apply eq_str_iff in Ok. congruence.
    + intros [[message A]|(response & A & Cases)].
      { unfold outcome. now rewrite (fetch_stop_info_no_answer _ A). }
      destruct (Z.eq_dec (wire.code response) 200) as [C|C].
      * destruct Cases as [N|[[message B]|(items & B & Cases)]];
          [contradiction| |].
        -- unfold outcome.
           now rewrite (fetch_stop_info_undecoded response _ A C B).
        -- unfold outcome.
           rewrite (fetch_stop_info_object response items A C B).
           destruct Cases as [S|T].
           ++ destruct (wire.eq_str _ "ok") eqn:Ok; [|reflexivity].
              apply eq_str_iff in Ok. contradiction.
           ++ rewrite T. cbn [negb]. now rewrite orb_true_r.
      * exact (fetch_stop_info_not_200 response A C).
  - intros e N. split.
    + intros A. unfold outcome.
      rewrite (fetch_stop_info_no_answer e A). now apply handled_raised.
    + intros response A C B. unfold outcome.
      rewrite (fetch_stop_info_undecoded response e A C B).
      now apply handled_raised.
  - intros response body A C B N.
    exact (fetch_stop_info_not_object response body A C B N).
  - intros response items first rest A C B S L N. unfold outcome.
    rewrite (fetch_stop_info_object response items A C B), S, L.
    cbn [Py.get wire.eq_str wire.truthy Py.truthy_list negb orb
         wire.subscript0].
    destruct first as [| | | | |entry]; try reflexivity.
    now elim (N entry).
Qed.

End WireStopInfo.

(** An answer about another stop, 999, sets the metadata of stop "123"; a
    network error returns; a timeout, a body that is a list and a null
    first stop raise. *)
Lemma fetch_stop_info_outcomes_witness :
  wire._fetch_stop_info
    (example.stop_answer (wire.of_stop_info (json example.other_stop))) "123"
  = inr (Some (wire.JStr "Patronka", wire.JList [wire.JStr "7"]))
  /\ wire._fetch_stop_info (fun _ => inl (ClientError "reset")) "123"
     = inr None
  /\ wire._fetch_stop_info (fun _ => inl TimeoutError) "123"
     = inl TimeoutError
  /\ wire._fetch_stop_info
       (example.stop_answer (wire.JList [])) "123"
     = inl (AttributeError "'list' object has no attribute 'get'")
  /\ wire._fetch_stop_info
       (example.stop_answer
          (wire.JDict [("status", wire.JStr "ok");
                       ("stops", wire.JList [wire.JNull])])) "123"
     = inl (AttributeError "'NoneType' object has no attribute 'get'").
Proof.
  split; [|split; [|split; [|split]]].
  - apply (proj1 (fetch_stop_info_outcomes _ "123")).
    eexists _, _, _, _.
    split; [reflexivity|]. split; [reflexivity|]. split; [reflexivity|].
    split; [reflexivity|]. split; [reflexivity|]. split; reflexivity.
  - apply (proj1 (proj2 (fetch_stop_info_outcomes _ "123"))).
    left. now exists "reset".
  - apply (proj1 (proj2 (proj2 (fetch_stop_info_outcomes _ "123")))
             TimeoutError); [discriminate|reflexivity].
  - apply (proj1 (proj2 (proj2 (proj2 (fetch_stop_info_outcomes _ "123"))))
             {| wire.code := 200; wire.decoded := inr (wire.JList []) |}
             (wire.JList []));
      [reflexivity|reflexivity|reflexivity|discriminate].
  - eapply (proj2 (proj2 (proj2 (proj2 (fetch_stop_info_outcomes _ "123"))))
              _ _ wire.JNull []);
      [reflexivity|reflexivity|reflexivity|reflexivity|reflexivity
      |discriminate].
Defined.

(** On a typed answer, read as the JSON object it was decoded from, the
    method on untyped JSON does what the method on typed records does. *)
Lemma fetch_stop_info_of_stop_info (w : World) (self : Coordinator) :
  let typed := coordinator._fetch_stop_info w self in
  match
    wire._fetch_stop_info
      (fun url =>
         match session_get w url with
         | inl e => inl e
         | inr response =>
             inr {| wire.code := status response;
                    wire.decoded :=
                      inr (wire.of_stop_info (json response)) |}
         end)
      (stop_id self)
  with
  | inl e => typed = (inl e, self)
  | inr None => typed = (inr tt, self)
  | inr (Some (name, lines)) =>
      fst typed = inr tt
      /\ name = wire.of_option (stop_name (snd typed))
      /\ lines = wire.JList (map wire.JStr (stopping_lines (snd typed)))
  end.
Proof.
  unfold wire._fetch_stop_info, coordinator._fetch_stop_info,
    coordinator.except_ClientError, coordinator.bind, coordinator.read,
    coordinator.await, coordinator.ret. cbv zeta.
  destruct (session_get w _) as [e|response]; cbn [wire.bind].
  { destruct e; reflexivity. }
  cbn [wire.code wire.decoded].
  destruct (status response =? 200); cbn [negb]; [|reflexivity].
  destruct (json response) as [[st|] [stops|]];
    cbn [wire.of_stop_info wire.object flat_map option_map app wire.bind
         wire.get wire.lookup String.eqb Ascii.eqb Bool.eqb Py.get
         wire.eq_str Py.opt_str_eqb negb orb andb wire.truthy j_status
         j_stops Py.truthy_list];
    try reflexivity.
  - destruct (st =? "ok")%string; cbn [negb orb]; [|reflexivity].
    destruct stops as [|[[id|] [name|] [lines|]] rest];
      cbn; repeat split; reflexivity.
  - destruct (st =? "ok")%string; cbn [negb orb]; reflexivity.
Qed.
